(** * The relayer module of the SDK (src/relayer/index.ts)

    A shallow embedding of the [RelayerClient] class: its constructor, the
    methods that forward to the relay transport, and the life cycle of the
    cached wallet address.  Asynchronous methods are computations in a
    state-and-exception monad over the trail of requests that reached the
    relay transport. *)

From Stdlib Require Import String List ZArith Lia Bool Arith.
Import ListNotations.
Local Open Scope string_scope.

(** ** JavaScript values *)

(** A thrown value: an error object with its [name] and [message]. *)
Record Exn : Type := { exn_name : string; exn_message : string }.

(** [new Error(message)]. *)
Definition newError (message : string) : Exn :=
  {| exn_name := "Error"; exn_message := message |}.

(** The result of evaluating code that may throw. *)
Inductive Outcome (A : Type) : Type :=
| Returned (a : A)
| Threw (e : Exn).
Arguments Returned {A} a.
Arguments Threw {A} e.

(** Truthiness of a possibly-undefined string: [undefined] and the empty string are falsy. *)
Definition truthy (v : option string) : bool :=
  match v with
  | Some s => negb (s =? EmptyString)
  | None => false
  end.

(** [a || b] on possibly-undefined strings. *)
Definition orElse (a b : option string) : option string :=
  if truthy a then a else b.

(** [n || d] on a possibly-undefined number: [undefined] and [0] are falsy. *)
Definition numOrElse (n : option Z) (d : Z) : Z :=
  match n with
  | Some v => if (v =? 0)%Z then d else v
  | None => d
  end.

(** A parameter with a default value: the default applies when the argument
    is omitted ([undefined]). *)
Definition defaulted {A : Type} (d : A) (arg : option A) : A :=
  match arg with
  | Some v => v
  | None => d
  end.

(** [states.includes(s)]. *)
Definition includes (states : list string) (s : string) : bool :=
  existsb (String.eqb s) states.

(** ** Data exchanged with the relay *)

Record ProxyTransaction : Type :=
  { ptx_to : string; ptx_typeCode : string; ptx_data : string; ptx_value : string }.

Record SafeTransaction : Type :=
  { stx_to : string; stx_operation : Z; stx_data : string; stx_value : string }.

(** The object a submission endpoint of the relay answers with.  Any field
    may be missing from the object at run time. *)
Module Raw.
Record t : Type :=
  { transactionID : option string;
    state : option string;
    hash : option string;
    transactionHash : option string }.
End Raw.

(** [RelayerTransactionResponse] (declared in ../types.js): the object literal
    every submission method builds. *)
Module Resp.
Record t : Type :=
  { transactionId : option string;
    state : option string;
    hash : option string;
    transactionHash : option string }.
End Resp.

(** A transaction as the relay reports it when queried (the wrapper treats it
    as [any]); fields as in the data model of the specification. *)
Record TransactionRecord : Type :=
  { tr_id : string;
    tr_state : string;
    tr_relayHash : option string;
    tr_chainTransactionHash : option string }.

Record AddressResponse : Type := { ar_address : string }.
Record NonceResponse : Type := { nr_nonce : string }.

(** ** The world: what reached the relay transport, and the time slept *)

Inductive TransportCall : Type :=
| GetRelayAddress
| GetNonce (address signerType : string)
| ExecuteProxyTransactions (txs : list ProxyTransaction) (metadata : option string)
| ExecuteSafeTransactions (txs : list SafeTransaction) (metadata : option string)
| DeploySafe
| GetTransaction (id : string)
| GetTransactions
| PollUntilState (id : string) (states : list string) (failState : string)
    (maxPolls pollFrequency : Z).

Inductive Event : Type :=
| Sent (c : TransportCall)
| Slept (ms : Z).

Definition World : Type := list Event.

(** ** The monad of asynchronous methods *)

Definition M (A : Type) : Type := World -> Outcome A * World.

Definition ret {A : Type} (a : A) : M A := fun w => (Returned a, w).

Definition throw {A : Type} (e : Exn) : M A := fun w => (Threw e, w).

Definition bind {A B : Type} (c : M A) (k : A -> M B) : M B :=
  fun w =>
    match c w with
    | (Returned a, w') => k a w'
    | (Threw e, w') => (Threw e, w')
    end.

(** [try { body } catch (error) { handler }]. *)
Definition tryCatch {A : Type} (body : M A) (handler : Exn -> M A) : M A :=
  fun w =>
    match body w with
    | (Returned a, w') => (Returned a, w')
    | (Threw e, w') => handler e w'
    end.

Declare Scope relay_scope.
Delimit Scope relay_scope with relay.
Notation "x <- c ;; k" := (bind c (fun x => k))
  (at level 61, c at next level, right associativity) : relay_scope.
Local Open Scope relay_scope.

(** ** The relay transport ([RelayClient] of @polymarket/relayer-client) *)

(** Modelled from the spec: the external cancellation signal of section 4.3,
    which no source file declares.  [raisedDuring n] tells whether the caller
    raises it while the [n]-th wait between polls is in progress. *)
Record CancelSignal : Type := { raisedDuring : nat -> bool }.

(** The methods of the transport the wrapper calls.  [pollUntilState] has,
    after the five arguments the wrapper supplies, the cancellation signal the
    specification asks of the poller; a call with five arguments leaves it
    undefined. *)
Module RelayClient.
Record t : Type :=
  { getRelayAddress : M AddressResponse;
    getNonce : string -> string -> M NonceResponse;
    executeProxyTransactions :
      list ProxyTransaction -> option string -> M Raw.t;
    executeSafeTransactions :
      list SafeTransaction -> option string -> M Raw.t;
    deploySafe : M Raw.t;
    getTransaction : string -> M (list TransactionRecord);
    getTransactions : M (list TransactionRecord);
    pollUntilState :
      string -> list string -> string -> Z -> Z -> option CancelSignal ->
      M (option TransactionRecord) }.
End RelayClient.

(** ** The configuration ([RelayerConfig], declared in ../types.js) *)

Record BackendConfig : Type := { privateKey : option string }.

(** A signer supplied by the caller ([any] in the source).  The constructor
    only asks whether it has a [getAddress] function; the promise that
    function returns is settled later by the environment. *)
Record Signer : Type := { signerName : string; hasGetAddress : bool }.

Record FrontendConfig : Type := { signer : option Signer }.

Record AuthConfig : Type := { authUrl : option string; authToken : option string }.

Record RelayerConfig : Type :=
  { relayerUrl : option string;
    chainId : option Z;
    backend : option BackendConfig;
    frontend : option FrontendConfig;
    auth : option AuthConfig }.

(** [ethers.Wallet]: the key it was made from and the address derived from it. *)
Record Wallet : Type := { wallet_privateKey : string; wallet_address : string }.

(** The third argument of [new RelayClient(...)]. *)
Inductive SignerArg : Type :=
| LocalWallet (w : Wallet)
| ProvidedSigner (s : Signer).

(** ** The class [RelayerClient] *)

Record RelayerClient : Type :=
  { client : RelayClient.t;
    config : RelayerConfig;
    walletAddress : option string }.

Definition DEFAULT_RELAYER_URL : string := "https://relayer.polymarket.com".

Definition missingModeMessage : string :=
  "Relayer configuration must include either 'backend' or 'frontend' mode. " ++
  "For automated systems use 'backend' with privateKey. " ++
  "For web apps use 'frontend' with signer.".

Definition isSome {A : Type} (o : option A) : bool :=
  match o with
  | Some _ => true
  | None => false
  end.

(** [config.backend?.privateKey], when truthy. *)
Definition backendKey (cfg : RelayerConfig) : option string :=
  match backend cfg with
  | Some b => if truthy (privateKey b) then privateKey b else None
  | None => None
  end.

(** [config.frontend?.signer], when truthy. *)
Definition frontendSigner (cfg : RelayerConfig) : option Signer :=
  match frontend cfg with
  | Some f => signer f
  | None => None
  end.

(** A constructed object together with what the constructor left behind in
    the run time: whether the callback handed to [signer.getAddress().then]
    is still waiting for its promise, and how many times that callback has
    written [walletAddress] so far. *)
Record Instance : Type :=
  { object : RelayerClient;
    callbackPending : bool;
    callbackWrites : nat }.

(** [config.relayerUrl || DEFAULT_RELAYER_URL]. *)
Definition effectiveUrl (cfg : RelayerConfig) : string :=
  match orElse (relayerUrl cfg) (Some DEFAULT_RELAYER_URL) with
  | Some u => u
  | None => DEFAULT_RELAYER_URL
  end.

Section Construction.

(** [new ethers.Wallet(privateKey)]: the wallet of a well-formed key, or the
    exception ethers throws for a malformed one. *)
Variable newWallet : string -> Outcome Wallet.

(** [new RelayClient(relayerUrl, chainId, signer, auth?)]. *)
Variable newRelayClient :
  string -> Z -> SignerArg -> option AuthConfig -> RelayClient.t.

(** The [if (config.auth) ... else ...] that creates the transport. *)
Definition createClient (url : string) (chain : Z) (s : SignerArg)
    (cfg : RelayerConfig) : RelayClient.t :=
  match auth cfg with
  | Some a => newRelayClient url chain s (Some a)
  | None => newRelayClient url chain s None
  end.

Definition construct (cfg : RelayerConfig) : Outcome Instance :=
  if negb (isSome (backend cfg)) && negb (isSome (frontend cfg)) then
    Threw (newError missingModeMessage)
  else
    let url := effectiveUrl cfg in
    let chain := numOrElse (chainId cfg) 137 in
    match backendKey cfg with
    | Some key =>
        match newWallet key with
        | Threw e => Threw e
        | Returned wallet =>
            Returned
              {| object :=
                   {| client := createClient url chain (LocalWallet wallet) cfg;
                      config := cfg;
                      walletAddress := Some (wallet_address wallet) |};
                 callbackPending := false;
                 callbackWrites := 0 |}
        end
    | None =>
        match frontendSigner cfg with
        | Some s =>
            Returned
              {| object :=
                   {| client := createClient url chain (ProvidedSigner s) cfg;
                      config := cfg;
                      walletAddress := None |};
                 callbackPending := hasGetAddress s;
                 callbackWrites := 0 |}
        | None => Threw (newError "Invalid relayer configuration")
        end
    end.

End Construction.

(** *** Methods *)

Definition getRelayerAddress (this : RelayerClient) : M string :=
  tryCatch
    (response <- RelayClient.getRelayAddress (client this) ;;
     ret (ar_address response))
    (fun error =>
       throw (newError ("Failed to get relayer address: " ++ exn_message error))).

Definition noAddressMessage : string :=
  "No wallet address available. Provide an address or ensure wallet is initialized.".

Definition getNonce (this : RelayerClient) (signerAddress : option string)
    (signerType : option string) : M string :=
  tryCatch
    (match orElse signerAddress (walletAddress this) with
     | Some address =>
         if negb (truthy (Some address)) then throw (newError noAddressMessage)
         else
           response <- RelayClient.getNonce (client this) address
                         (defaulted "EOA" signerType) ;;
           ret (nr_nonce response)
     | None => throw (newError noAddressMessage)
     end)
    (fun error => throw (newError ("Failed to get nonce: " ++ exn_message error))).

(** The object literal the three submission methods build from a response. *)
Definition toResponse (response : Raw.t) : Resp.t :=
  {| Resp.transactionId := Raw.transactionID response;
     Resp.state := Raw.state response;
     Resp.hash := Raw.hash response;
     Resp.transactionHash := Raw.transactionHash response |}.

Definition executeProxyTransactions (this : RelayerClient)
    (transactions : list ProxyTransaction) (metadata : option string) : M Resp.t :=
  tryCatch
    (response <- RelayClient.executeProxyTransactions (client this)
                   transactions metadata ;;
     ret (toResponse response))
    (fun error =>
       throw (newError ("Failed to execute proxy transactions: " ++ exn_message error))).

Definition executeSafeTransactions (this : RelayerClient)
    (transactions : list SafeTransaction) (metadata : option string) : M Resp.t :=
  tryCatch
    (response <- RelayClient.executeSafeTransactions (client this)
                   transactions metadata ;;
     ret (toResponse response))
    (fun error =>
       throw (newError ("Failed to execute safe transactions: " ++ exn_message error))).

Definition deploySafe (this : RelayerClient) : M Resp.t :=
  tryCatch
    (response <- RelayClient.deploySafe (client this) ;;
     ret (toResponse response))
    (fun error => throw (newError ("Failed to deploy safe: " ++ exn_message error))).

Definition getTransaction (this : RelayerClient) (transactionId : string)
    : M (list TransactionRecord) :=
  tryCatch
    (RelayClient.getTransaction (client this) transactionId)
    (fun error => throw (newError ("Failed to get transaction: " ++ exn_message error))).

Definition getTransactions (this : RelayerClient) : M (list TransactionRecord) :=
  tryCatch
    (RelayClient.getTransactions (client this))
    (fun error => throw (newError ("Failed to get transactions: " ++ exn_message error))).

Definition waitForTransaction (this : RelayerClient) (transactionId : string)
    (desiredStates : option (list string)) (failState : option string)
    (maxPolls : option Z) (pollFrequency : option Z)
    : M (option TransactionRecord) :=
  tryCatch
    (RelayClient.pollUntilState (client this)
       transactionId
       (defaulted ["STATE_CONFIRMED"] desiredStates)
       (defaulted "STATE_FAILED" failState)
       (defaulted 60%Z maxPolls)
       (defaulted 2000%Z pollFrequency)
       None)
    (fun error =>
       throw (newError ("Failed to wait for transaction: " ++ exn_message error))).

Definition getWalletAddress (this : RelayerClient) : option string :=
  walletAddress this.


(** ** What happens to an instance after construction *)

Inductive Method : Type :=
| MGetRelayerAddress
| MGetNonce
| MExecuteProxyTransactions
| MExecuteSafeTransactions
| MDeploySafe
| MGetTransaction
| MGetTransactions
| MWaitForTransaction
| MGetWalletAddress
| MGetRawClient.

(** The promise of [signer.getAddress()] fulfils or rejects, or a method of
    the object runs.  The only assignment to [walletAddress] outside the
    constructor is in the callback registered on that promise; a promise
    runs a registered callback at most once, and only when it fulfils. *)
Inductive Happening : Type :=
| AddressFulfilled (addr : string)
| AddressRejected
| MethodRan (m : Method).

Definition happen (i : Instance) (h : Happening) : Instance :=
  match h with
  | AddressFulfilled addr =>
      if callbackPending i then
        {| object :=
             {| client := client (object i);
                config := config (object i);
                walletAddress := Some addr |};
           callbackPending := false;
           callbackWrites := S (callbackWrites i) |}
      else i
  | AddressRejected =>
      {| object := object i;
         callbackPending := false;
         callbackWrites := callbackWrites i |}
  | MethodRan _ => i
  end.

Definition after (i : Instance) (hs : list Happening) : Instance :=
  fold_left happen hs i.

Definition isFulfilment (h : Happening) : bool :=
  match h with
  | AddressFulfilled _ => true
  | _ => false
  end.

Definition isSettlement (h : Happening) : bool :=
  match h with
  | AddressFulfilled _ | AddressRejected => true
  | MethodRan _ => false
  end.

(** ** A relay given by its answers *)

(** What the relay network answers, as a function of everything that has
    reached it so far.  [current id n] is the record the relay reports as
    current the [n]-th time (from 0) it is asked about [id]. *)
Record Relay : Type :=
  { relayAddress : World -> Outcome AddressResponse;
    nonceFor : string -> string -> World -> Outcome NonceResponse;
    acceptProxy : list ProxyTransaction -> option string -> World -> Outcome Raw.t;
    acceptSafe : list SafeTransaction -> option string -> World -> Outcome Raw.t;
    acceptDeploy : World -> Outcome Raw.t;
    historyOf : string -> World -> Outcome (list TransactionRecord);
    allTransactions : World -> Outcome (list TransactionRecord);
    current : string -> nat -> Outcome TransactionRecord }.

(** One request to the transport: it is recorded, and the relay answers. *)
Definition request {A : Type} (c : TransportCall) (answer : World -> Outcome A)
    : M A :=
  fun w => (answer w, (w ++ [Sent c])%list).

Definition isPollOf (id : string) (e : Event) : bool :=
  match e with
  | Sent (GetTransaction i) => i =? id
  | _ => false
  end.

(** How many times the relay has been asked about [id]. *)
Definition pollsOf (id : string) (w : World) : nat :=
  List.length (filter (isPollOf id) w).

(** Modelled from the spec: step 1 of the poll loop (section 4.3), "query the
    current record", which is made inside @polymarket/relayer-client: one
    [GetTransaction] request, answered with the current record. *)
Definition queryCurrent (relay : Relay) (id : string) : M TransactionRecord :=
  fun w => (current relay id (pollsOf id w), (w ++ [Sent (GetTransaction id)])%list).

(** Modelled from the spec: the error of a cancelled poll loop (section 7,
    [Cancelled]); the poller belongs to @polymarket/relayer-client, which is
    not among the sources. *)
Definition cancelled : Exn :=
  {| exn_name := "Cancelled"; exn_message := "Cancelled" |}.

(** Modelled from the spec: the wait between two polls (section 4.3), which
    an attached cancellation signal interrupts with [Cancelled]; the poller
    belongs to @polymarket/relayer-client, which is not among the sources. *)
Definition wait (ms : Z) (signal : option CancelSignal) (waitNo : nat) : M unit :=
  fun w =>
    match signal with
    | Some s =>
        if raisedDuring s waitNo then (Threw cancelled, w)
        else (Returned tt, (w ++ [Slept ms])%list)
    | None => (Returned tt, (w ++ [Slept ms])%list)
    end.

(** Modelled from the spec: the poll loop of [pollUntilState] (section 4.3,
    steps 1 to 5), whose body is in @polymarket/relayer-client and not among
    the sources.  Query the current record; a desired state returns it; the
    fail state returns the "not reached" sentinel ([undefined]); otherwise,
    while polls remain, wait and poll again; with no poll left, return the
    sentinel.  [remaining] counts the polls still allowed after this one. *)
Fixpoint pollLoop (query : string -> M TransactionRecord) (id : string)
    (desired : list string) (fail : string) (ms : Z)
    (signal : option CancelSignal) (remaining waitNo : nat) {struct remaining}
    : M (option TransactionRecord) :=
  record <- query id ;;
  if includes desired (tr_state record) then ret (Some record)
  else if tr_state record =? fail then ret None
  else
    match remaining with
    | O => ret None
    | S n =>
        _ <- wait ms signal waitNo ;;
        pollLoop query id desired fail ms signal n (S waitNo)
    end.

(** Modelled from the spec: [pollUntilState(id, desiredStates, failState,
    maxPolls, pollIntervalMs)] of @polymarket/relayer-client (section 4.3),
    not among the sources: a budget of [maxPolls] polls, the first of which
    is always made. *)
Definition specPollUntilState (query : string -> M TransactionRecord)
    (id : string) (desired : list string) (fail : string) (maxPolls ms : Z)
    (signal : option CancelSignal) : M (option TransactionRecord) :=
  pollLoop query id desired fail ms signal (Z.to_nat maxPolls - 1) 0.

(** The transport in front of a relay: every method is one recorded request,
    and [pollUntilState] is the poll loop over [GetTransaction] requests. *)
Definition scripted (relay : Relay) : RelayClient.t :=
  {| RelayClient.getRelayAddress := request GetRelayAddress (relayAddress relay);
     RelayClient.getNonce := fun address signerType =>
       request (GetNonce address signerType) (nonceFor relay address signerType);
     RelayClient.executeProxyTransactions := fun txs metadata =>
       request (ExecuteProxyTransactions txs metadata) (acceptProxy relay txs metadata);
     RelayClient.executeSafeTransactions := fun txs metadata =>
       request (ExecuteSafeTransactions txs metadata) (acceptSafe relay txs metadata);
     RelayClient.deploySafe := request DeploySafe (acceptDeploy relay);
     RelayClient.getTransaction := fun id =>
       request (GetTransaction id) (historyOf relay id);
     RelayClient.getTransactions := request GetTransactions (allTransactions relay);
     RelayClient.pollUntilState := specPollUntilState (queryCurrent relay) |}.

(** ** Sample relays and instances *)

Definition txRecord (id st : string) : TransactionRecord :=
  {| tr_id := id; tr_state := st; tr_relayHash := None;
     tr_chainTransactionHash := None |}.

(** A relay that accepts every submission as [tx-1] in [STATE_NEW] and reports
    the state [states id n] at the [n]-th poll of [id]. *)
Definition relayReporting (states : string -> nat -> string) : Relay :=
  let accepted :=
    {| Raw.transactionID := Some "tx-1"; Raw.state := Some "STATE_NEW";
       Raw.hash := None; Raw.transactionHash := None |} in
  {| relayAddress := fun _ => Returned {| ar_address := "0xRELAY" |};
     nonceFor := fun _ _ _ => Returned {| nr_nonce := "7" |};
     acceptProxy := fun _ _ _ => Returned accepted;
     acceptSafe := fun _ _ _ => Returned accepted;
     acceptDeploy := fun _ => Returned accepted;
     historyOf := fun id _ => Returned [txRecord id "STATE_NEW"];
     allTransactions := fun _ => Returned [];
     current := fun id n => Returned (txRecord id (states id n)) |}.

(** A relay on which no transaction ever leaves [STATE_NEW]. *)
Definition stuckRelay : Relay := relayReporting (fun _ _ => "STATE_NEW").

(** A relay on which every transaction is in [STATE_FAILED]. *)
Definition failingRelay : Relay := relayReporting (fun _ _ => "STATE_FAILED").

(** A relay that goes [STATE_NEW], [STATE_MINED], [STATE_CONFIRMED]. *)
Definition confirmingRelay : Relay :=
  relayReporting (fun _ n =>
    match n with
    | 0 => "STATE_NEW"
    | 1 => "STATE_MINED"
    | _ => "STATE_CONFIRMED"
    end).

(** A relay whose submission endpoints answer with an empty object. *)
Definition silentRelay : Relay :=
  let empty :=
    {| Raw.transactionID := None; Raw.state := None;
       Raw.hash := None; Raw.transactionHash := None |} in
  {| relayAddress := relayAddress stuckRelay;
     nonceFor := nonceFor stuckRelay;
     acceptProxy := fun _ _ _ => Returned empty;
     acceptSafe := fun _ _ _ => Returned empty;
     acceptDeploy := fun _ => Returned empty;
     historyOf := historyOf stuckRelay;
     allTransactions := allTransactions stuckRelay;
     current := current stuckRelay |}.

Definition emptyConfig : RelayerConfig :=
  {| relayerUrl := None; chainId := None; backend := None; frontend := None;
     auth := None |}.

(** An object whose transport talks to [relay]. *)
Definition clientOf (relay : Relay) (address : option string) : RelayerClient :=
  {| client := scripted relay; config := emptyConfig; walletAddress := address |}.

(** A stand-in for ethers: keys starting with [0x] are well formed. *)
Definition sampleWallet (key : string) : Outcome Wallet :=
  if prefix "0x" key then
    Returned {| wallet_privateKey := key; wallet_address := "addr:" ++ key |}
  else Threw {| exn_name := "TypeError"; exn_message := "invalid private key" |}.

(** A stand-in for the transport constructor: every client talks to the
    relay stuck in [STATE_NEW]. *)
Definition sampleRelayClient (url : string) (chain : Z) (s : SignerArg)
    (a : option AuthConfig) : RelayClient.t :=
  scripted stuckRelay.

Definition browserSigner : Signer :=
  {| signerName := "browser"; hasGetAddress := true |}.

Definition backendConfig (key : string) : RelayerConfig :=
  {| relayerUrl := None; chainId := Some 137%Z;
     backend := Some {| privateKey := Some key |};
     frontend := None; auth := None |}.

Definition frontendConfig : RelayerConfig :=
  {| relayerUrl := None; chainId := None; backend := None;
     frontend := Some {| signer := Some browserSigner |}; auth := None |}.

Definition bothConfig (key : string) : RelayerConfig :=
  {| relayerUrl := Some "https://relay.example"; chainId := None;
     backend := Some {| privateKey := Some key |};
     frontend := Some {| signer := Some browserSigner |};
     auth := Some {| authUrl := Some "https://auth.example"; authToken := Some "t" |} |}.

(** A relay on which every transaction is in [STATE_CONFIRMED]. *)
Definition confirmedRelay : Relay := relayReporting (fun _ _ => "STATE_CONFIRMED").

(** A relay that turns every request down. *)
Definition rejectingRelay : Relay :=
  let no := {| exn_name := "Error"; exn_message := "rejected" |} in
  {| relayAddress := fun _ => Threw no;
     nonceFor := fun _ _ _ => Threw no;
     acceptProxy := fun _ _ _ => Threw no;
     acceptSafe := fun _ _ _ => Threw no;
     acceptDeploy := fun _ => Threw no;
     historyOf := fun _ _ => Threw no;
     allTransactions := fun _ => Threw no;
     current := fun _ _ => Threw no |}.

(** A transport that does not poll: it records the arguments its
    [pollUntilState] is called with and answers [undefined]. *)
Definition recordingClient : RelayClient.t :=
  {| RelayClient.getRelayAddress := RelayClient.getRelayAddress (scripted stuckRelay);
     RelayClient.getNonce := RelayClient.getNonce (scripted stuckRelay);
     RelayClient.executeProxyTransactions :=
       RelayClient.executeProxyTransactions (scripted stuckRelay);
     RelayClient.executeSafeTransactions :=
       RelayClient.executeSafeTransactions (scripted stuckRelay);
     RelayClient.deploySafe := RelayClient.deploySafe (scripted stuckRelay);
     RelayClient.getTransaction := RelayClient.getTransaction (scripted stuckRelay);
     RelayClient.getTransactions := RelayClient.getTransactions (scripted stuckRelay);
     RelayClient.pollUntilState := fun id states failState maxPolls pollFrequency _ =>
       request (PollUntilState id states failState maxPolls pollFrequency)
         (fun _ => Returned None) |}.

(** A cancellation signal raised during the very first wait. *)
Definition raisedAtOnce : CancelSignal := {| raisedDuring := fun _ => true |}.

(** Whether an observed poll leaves the loop running: the query succeeded and
    the state is neither desired nor the fail state. *)
Definition nonTerminal (desired : list string) (fail : string)
    (o : Outcome TransactionRecord) : bool :=
  match o with
  | Returned record =>
      negb (includes desired (tr_state record)) && negb (tr_state record =? fail)
  | Threw _ => false
  end.


(** A signer object without a [getAddress] function. *)
Definition bareSigner : Signer :=
  {| signerName := "bare"; hasGetAddress := false |}.

(** [backend] is set but carries no private key, and there is no frontend. *)
Definition keylessConfig : RelayerConfig :=
  {| relayerUrl := None; chainId := None;
     backend := Some {| privateKey := None |};
     frontend := None; auth := None |}.

(** [backend] carries an empty private key next to a frontend signer. *)
Definition emptyKeyConfig (s : Signer) : RelayerConfig :=
  {| relayerUrl := None; chainId := None;
     backend := Some {| privateKey := Some EmptyString |};
     frontend := Some {| signer := Some s |}; auth := None |}.

(** A backend configuration whose URL is the empty string and whose chain id
    is 0. *)
Definition falsyOptionsConfig (key : string) : RelayerConfig :=
  {| relayerUrl := Some EmptyString; chainId := Some 0%Z;
     backend := Some {| privateKey := Some key |};
     frontend := None; auth := None |}.

(** A stand-in for the transport constructor that keeps what it was given:
    the relay it talks to reports the URL as its address and, as a nonce,
    the address it is asked about. *)
Definition echoRelayClient (url : string) (chain : Z) (s : SignerArg)
    (a : option AuthConfig) : RelayClient.t :=
  scripted
    {| relayAddress := fun _ => Returned {| ar_address := url |};
       nonceFor := fun address _ _ => Returned {| nr_nonce := address |};
       acceptProxy := acceptProxy stuckRelay;
       acceptSafe := acceptSafe stuckRelay;
       acceptDeploy := acceptDeploy stuckRelay;
       historyOf := historyOf stuckRelay;
       allTransactions := allTransactions stuckRelay;
       current := current stuckRelay |}.

(** * Properties *)

(** ** Counting polls *)

Lemma pollsOf_snoc (id : string) (w : World) (e : Event) :
  pollsOf id (w ++ [e])%list = pollsOf id w + (if isPollOf id e then 1 else 0).
Proof.
  unfold pollsOf. rewrite filter_app, length_app. simpl.
  destruct (isPollOf id e); reflexivity.
Qed.

Lemma pollsOf_poll (id : string) (w : World) :
  pollsOf id (w ++ [Sent (GetTransaction id)])%list = S (pollsOf id w).
Proof.
  rewrite pollsOf_snoc. simpl. rewrite String.eqb_refl. lia.
Qed.

Lemma pollsOf_slept (id : string) (w : World) (ms : Z) :
  pollsOf id (w ++ [Slept ms])%list = pollsOf id w.
Proof. rewrite pollsOf_snoc. simpl. lia. Qed.

(** ** The poll loop *)

Section PollLoop.

Variable relay : Relay.
Variable id : string.
Variable desired : list string.
Variable fail : string.
Variable ms : Z.

Local Notation "'loop'" := (pollLoop (queryCurrent relay) id desired fail ms None).

(** One turn of the loop, with no signal attached. *)
Lemma pollLoop_turn (remaining waitNo : nat) (w : World) :
  loop remaining waitNo w =
  let w1 := (w ++ [Sent (GetTransaction id)])%list in
  match current relay id (pollsOf id w) with
  | Threw e => (Threw e, w1)
  | Returned record =>
      if includes desired (tr_state record) then (Returned (Some record), w1)
      else if tr_state record =? fail then (Returned None, w1)
      else
        match remaining with
        | O => (Returned None, w1)
        | S n => loop n (S waitNo) (w1 ++ [Slept ms])%list
        end
  end.
Proof.
  destruct remaining; simpl; unfold bind, queryCurrent;
    destruct (current relay id (pollsOf id w)) as [record|e]; try reflexivity;
    destruct (includes desired (tr_state record)); try reflexivity;
    destruct (tr_state record =? fail); reflexivity.
Qed.

(** [k] polls that leave the loop running are [k] polls made, with as many
    waits, and the loop goes on with the rest of its budget. *)
Lemma pollLoop_skip (k : nat) :
  forall (remaining waitNo : nat) (w : World),
    k <= remaining ->
    (forall j, j < k ->
       nonTerminal desired fail (current relay id (pollsOf id w + j)) = true) ->
    exists w',
      loop remaining waitNo w = loop (remaining - k) (waitNo + k) w' /\
      pollsOf id w' = pollsOf id w + k.
Proof.
  induction k as [|k IH]; intros remaining waitNo w Hk Hrun.
  - exists w. rewrite Nat.sub_0_r, !Nat.add_0_r. split; reflexivity.
  - destruct remaining as [|n]; [lia|].
    pose proof (Hrun 0 ltac:(lia)) as H0. rewrite Nat.add_0_r in H0.
    rewrite pollLoop_turn. cbv zeta.
    destruct (current relay id (pollsOf id w)) as [record|e]; [|discriminate].
    simpl in H0. apply andb_true_iff in H0 as [Hd Hf].
    apply negb_true_iff in Hd. apply negb_true_iff in Hf.
    rewrite Hd, Hf.
    destruct (IH n (S waitNo)
                ((w ++ [Sent (GetTransaction id)]) ++ [Slept ms])%list)
      as (w' & Hloop & Hpolls).
    + lia.
    + intros j Hj. rewrite pollsOf_slept, pollsOf_poll.
      replace (S (pollsOf id w) + j) with (pollsOf id w + S j) by lia.
      apply Hrun. lia.
    + exists w'. split.
      * rewrite Hloop. f_equal. lia.
      * rewrite Hpolls, pollsOf_slept, pollsOf_poll. lia.
Qed.

(** The loop stops at the first poll that shows a desired state. *)
Lemma pollLoop_desired (k remaining waitNo : nat) (w : World)
    (record : TransactionRecord) :
  k <= remaining ->
  (forall j, j < k ->
     nonTerminal desired fail (current relay id (pollsOf id w + j)) = true) ->
  current relay id (pollsOf id w + k) = Returned record ->
  includes desired (tr_state record) = true ->
  exists w',
    loop remaining waitNo w = (Returned (Some record), w') /\
    pollsOf id w' = pollsOf id w + S k.
Proof.
  intros Hk Hrun Hcur Hin.
  destruct (pollLoop_skip k remaining waitNo w Hk Hrun) as (w1 & Hloop & Hpolls).
  exists (w1 ++ [Sent (GetTransaction id)])%list. split.
  - rewrite Hloop, pollLoop_turn. cbv zeta. rewrite Hpolls, Hcur, Hin. reflexivity.
  - rewrite pollsOf_poll, Hpolls. lia.
Qed.

(** The loop stops at the first poll that shows the fail state. *)
Lemma pollLoop_failed (k remaining waitNo : nat) (w : World)
    (record : TransactionRecord) :
  k <= remaining ->
  (forall j, j < k ->
     nonTerminal desired fail (current relay id (pollsOf id w + j)) = true) ->
  current relay id (pollsOf id w + k) = Returned record ->
  includes desired (tr_state record) = false ->
  tr_state record = fail ->
  exists w',
    loop remaining waitNo w = (Returned None, w') /\
    pollsOf id w' = pollsOf id w + S k.
Proof.
  intros Hk Hrun Hcur Hin Hfail.
  destruct (pollLoop_skip k remaining waitNo w Hk Hrun) as (w1 & Hloop & Hpolls).
  exists (w1 ++ [Sent (GetTransaction id)])%list. split.
  - rewrite Hloop, pollLoop_turn. cbv zeta. rewrite Hpolls, Hcur, Hin.
    rewrite Hfail, String.eqb_refl. reflexivity.
  - rewrite pollsOf_poll, Hpolls. lia.
Qed.

(** A loop that never sees a terminal state uses its whole budget. *)
Lemma pollLoop_exhausted (remaining waitNo : nat) (w : World) :
  (forall j, j < S remaining ->
     nonTerminal desired fail (current relay id (pollsOf id w + j)) = true) ->
  exists w',
    loop remaining waitNo w = (Returned None, w') /\
    pollsOf id w' = pollsOf id w + S remaining.
Proof.
  intros Hrun.
  destruct (pollLoop_skip remaining remaining waitNo w (Nat.le_refl _))
    as (w1 & Hloop & Hpolls).
  { intros j Hj. apply Hrun. lia. }
  exists (w1 ++ [Sent (GetTransaction id)])%list. split.
  - rewrite Hloop, pollLoop_turn. cbv zeta. rewrite Nat.sub_diag, Hpolls.
    pose proof (Hrun remaining ltac:(lia)) as Hlast.
    destruct (current relay id (pollsOf id w + remaining)) as [record|e];
      [|discriminate].
    simpl in Hlast. apply andb_true_iff in Hlast as [Hd Hf].
    apply negb_true_iff in Hd. apply negb_true_iff in Hf.
    rewrite Hd, Hf. reflexivity.
  - rewrite pollsOf_poll, Hpolls. lia.
Qed.

End PollLoop.

(** ** Waiting for a transaction *)

(** What [waitForTransaction] hands to the transport, and how it wraps what
    the transport throws. *)
Lemma waitForTransaction_unfold (this : RelayerClient) (transactionId : string)
    (desiredStates : option (list string)) (failState : option string)
    (maxPolls pollFrequency : option Z) (w : World) :
  waitForTransaction this transactionId desiredStates failState maxPolls
    pollFrequency w =
  match
    RelayClient.pollUntilState (client this) transactionId
      (defaulted ["STATE_CONFIRMED"] desiredStates)
      (defaulted "STATE_FAILED" failState)
      (defaulted 60%Z maxPolls) (defaulted 2000%Z pollFrequency) None w
  with
  | (Returned r, w') => (Returned r, w')
  | (Threw e, w') =>
      (Threw (newError ("Failed to wait for transaction: " ++ exn_message e)), w')
  end.
Proof. reflexivity. Qed.

(** Over a scripted relay, a poll loop that returns is what the method
    returns. *)
Lemma waitForTransaction_scripted (this : RelayerClient) (relay : Relay)
    (transactionId : string) (desiredStates : option (list string))
    (failState : option string) (maxPolls pollFrequency : option Z)
    (w w' : World) (r : option TransactionRecord) :
  client this = scripted relay ->
  pollLoop (queryCurrent relay) transactionId
    (defaulted ["STATE_CONFIRMED"] desiredStates)
    (defaulted "STATE_FAILED" failState) (defaulted 2000%Z pollFrequency) None
    (Z.to_nat (defaulted 60%Z maxPolls) - 1) 0 w = (Returned r, w') ->
  waitForTransaction this transactionId desiredStates failState maxPolls
    pollFrequency w = (Returned r, w').
Proof.
  intros Hclient Hloop. rewrite waitForTransaction_unfold, Hclient.
  simpl. unfold specPollUntilState. rewrite Hloop. reflexivity.
Qed.

(** Replace the run of the method by the run of its poll loop. *)
Ltac settle_run Hclient Hloop :=
  match type of Hloop with
  | pollLoop _ _ _ _ _ _ _ _ ?w = (Returned ?r, ?w') =>
      rewrite (waitForTransaction_scripted _ _ _ _ _ _ _ w w' r Hclient Hloop)
  end.

(** C1. For every transaction id, [waitForTransaction] polls the relay for the
    record and, with a budget of at least one poll: returns the record at the
    first poll whose state is among the desired states; returns the "not
    reached" sentinel, without throwing, at the first poll whose state is the
    fail state (and not a desired one), so after a single poll when the relay
    reports the fail state at once, leaving the rest of the budget unused;
    and, when every poll of the budget shows a state that is neither desired
    nor the fail state, makes exactly [maxPolls] polls and returns the
    sentinel. *)
Theorem waitForTransaction_poll_outcomes (this : RelayerClient) (relay : Relay)
    (transactionId : string) (desiredStates : option (list string))
    (failState : option string) (maxPolls pollFrequency : option Z) (w : World) :
  client this = scripted relay ->
  (1 <= defaulted 60 maxPolls)%Z ->
  let desired := defaulted ["STATE_CONFIRMED"] desiredStates in
  let fail := defaulted "STATE_FAILED" failState in
  let budget := Z.to_nat (defaulted 60%Z maxPolls) in
  let observed := fun j => current relay transactionId (pollsOf transactionId w + j) in
  let run :=
    waitForTransaction this transactionId desiredStates failState maxPolls
      pollFrequency w in
  (forall k record,
      k < budget ->
      (forall j, j < k -> nonTerminal desired fail (observed j) = true) ->
      observed k = Returned record ->
      includes desired (tr_state record) = true ->
      fst run = Returned (Some record) /\
      pollsOf transactionId (snd run) = pollsOf transactionId w + S k)
  /\
  (forall k record,
      k < budget ->
      (forall j, j < k -> nonTerminal desired fail (observed j) = true) ->
      observed k = Returned record ->
      includes desired (tr_state record) = false ->
      tr_state record = fail ->
      fst run = Returned None /\
      pollsOf transactionId (snd run) = pollsOf transactionId w + S k)
  /\
  ((forall j, j < budget -> nonTerminal desired fail (observed j) = true) ->
   fst run = Returned None /\
   pollsOf transactionId (snd run) = pollsOf transactionId w + budget).
Proof.
  intros Hclient Hbudget desired fail budget observed run.
  assert (Hb : budget = S (budget - 1)) by (unfold budget; lia).
  split; [|split].
  - intros k record Hk Hrun Hcur Hin.
    destruct (pollLoop_desired relay transactionId desired fail
                (defaulted 2000%Z pollFrequency) k (budget - 1) 0 w record)
      as (w' & Hloop & Hpolls); [lia|exact Hrun|exact Hcur|exact Hin|].
    unfold run. settle_run Hclient Hloop. split; [reflexivity|exact Hpolls].
  - intros k record Hk Hrun Hcur Hin Hfail.
    destruct (pollLoop_failed relay transactionId desired fail
                (defaulted 2000%Z pollFrequency) k (budget - 1) 0 w record)
      as (w' & Hloop & Hpolls); [lia|exact Hrun|exact Hcur|exact Hin|exact Hfail|].
    unfold run. settle_run Hclient Hloop. split; [reflexivity|exact Hpolls].
  - intros Hrun.
    destruct (pollLoop_exhausted relay transactionId desired fail
                (defaulted 2000%Z pollFrequency) (budget - 1) 0 w)
      as (w' & Hloop & Hpolls); [rewrite <- Hb; exact Hrun|].
    unfold run. settle_run Hclient Hloop. split; [reflexivity|].
    simpl. rewrite Hpolls. lia.
Qed.

(** A run of three polls against a relay stuck in a non-terminal state, a
    single poll against a relay that reports the fail state, and three polls
    against a relay that confirms at the third. *)
Lemma waitForTransaction_poll_outcomes_witness :
  (let run :=
     waitForTransaction (clientOf stuckRelay None) "tx-1" None None (Some 3%Z)
       None [] in
   fst run = Returned None /\ pollsOf "tx-1" (snd run) = 0 + 3)
  /\
  (let run :=
     waitForTransaction (clientOf failingRelay None) "tx-1" None None (Some 3%Z)
       None [] in
   fst run = Returned None /\ pollsOf "tx-1" (snd run) = 0 + 1)
  /\
  (let run :=
     waitForTransaction (clientOf confirmingRelay None) "tx-1" None None None
       None [] in
   fst run = Returned (Some (txRecord "tx-1" "STATE_CONFIRMED")) /\
   pollsOf "tx-1" (snd run) = 0 + 3).
Proof.
  split; [|split].
  - refine (proj2 (proj2 (waitForTransaction_poll_outcomes
              (clientOf stuckRelay None) stuckRelay "tx-1" None None (Some 3%Z)
              None [] eq_refl _)) _).
    + simpl. lia.
    + intros j Hj. reflexivity.
  - refine (proj1 (proj2 (waitForTransaction_poll_outcomes
              (clientOf failingRelay None) failingRelay "tx-1" None None
              (Some 3%Z) None [] eq_refl _))
              0 (txRecord "tx-1" "STATE_FAILED") _ _ eq_refl eq_refl eq_refl).
    + simpl. lia.
    + simpl. lia.
    + intros j Hj. lia.
  - refine (proj1 (waitForTransaction_poll_outcomes
              (clientOf confirmingRelay None) confirmingRelay "tx-1" None None
              None None [] eq_refl _)
              2 (txRecord "tx-1" "STATE_CONFIRMED") _ _ eq_refl eq_refl).
    + simpl. lia.
    + simpl. lia.
    + intros j Hj. destruct j as [|[|j]]; [reflexivity|reflexivity|lia].
Defined.

(** ** Submitting *)

(** The three submission methods share one shape: forward, then either build
    the response object or rethrow with the method's own prefix. *)
Lemma submit_shape (call : M Raw.t) (prefix : string) (w : World) :
  tryCatch (response <- call ;; ret (toResponse response))
    (fun error => throw (newError (prefix ++ exn_message error))) w =
  match call w with
  | (Returned r, w') => (Returned (toResponse r), w')
  | (Threw e, w') => (Threw (newError (prefix ++ exn_message e)), w')
  end.
Proof.
  unfold tryCatch, bind, ret, throw.
  destruct (call w) as [[r|e] w']; reflexivity.
Qed.

(** C2, as the code has it.  [executeProxyTransactions] checks nothing of its
    own: for every list of calls, the empty one included, and every metadata
    value, exactly one request carrying the calls and the metadata unchanged
    reaches the relay transport, and the method returns the normalized
    response, or, when the transport throws, fails with an [Error] whose
    message is "Failed to execute proxy transactions: " followed by the
    transport's. *)
Theorem executeProxyTransactions_forwards (this : RelayerClient) (relay : Relay)
    (transactions : list ProxyTransaction) (metadata : option string) (w : World) :
  client this = scripted relay ->
  let run := executeProxyTransactions this transactions metadata w in
  snd run = (w ++ [Sent (ExecuteProxyTransactions transactions metadata)])%list /\
  fst run =
    match acceptProxy relay transactions metadata w with
    | Returned r => Returned (toResponse r)
    | Threw e =>
        Threw (newError ("Failed to execute proxy transactions: " ++ exn_message e))
    end.
Proof.
  intros Hclient run. unfold run, executeProxyTransactions.
  rewrite submit_shape, Hclient. simpl. unfold request.
  destruct (acceptProxy relay transactions metadata w); split; reflexivity.
Qed.

(** An empty batch sent to a relay that turns it down: the request has been
    made, and the relay's refusal comes back wrapped. *)
Lemma executeProxyTransactions_forwards_witness :
  let run := executeProxyTransactions (clientOf rejectingRelay None) [] None [] in
  snd run = [Sent (ExecuteProxyTransactions [] None)] /\
  fst run =
    Threw (newError "Failed to execute proxy transactions: rejected").
Proof.
  exact (executeProxyTransactions_forwards (clientOf rejectingRelay None)
           rejectingRelay [] None [] eq_refl).
Defined.

(** C2 as stated fails: an empty batch is handed to the transport, and when
    the relay accepts it the method returns normally. *)
Lemma executeProxyTransactions_empty_not_rejected :
  executeProxyTransactions (clientOf stuckRelay None) [] None [] =
    (Returned {| Resp.transactionId := Some "tx-1"; Resp.state := Some "STATE_NEW";
                 Resp.hash := None; Resp.transactionHash := None |},
     [Sent (ExecuteProxyTransactions [] None)])
  /\
  ~ (forall (this : RelayerClient) (metadata : option string) (w : World),
       exists e, executeProxyTransactions this [] metadata w = (Threw e, w)).
Proof.
  split; [reflexivity|].
  intros Hclaim.
  destruct (Hclaim (clientOf stuckRelay None) None []) as [e He].
  discriminate He.
Qed.

(** C3, as the code has it.  For every response of the relay to a submission
    (proxy batch, safe batch, safe deployment), the method returns the
    normalized record without throwing, and each field of that record is the
    response's field of the same role: a field absent from the response, the
    identifier included, is absent ([undefined]) in the record. *)
Theorem submission_keeps_absent_fields (this : RelayerClient)
    (transactions : list ProxyTransaction) (safeTransactions : list SafeTransaction)
    (metadata : option string) (w w' : World) (r : Raw.t) :
  (RelayClient.executeProxyTransactions (client this) transactions metadata w
     = (Returned r, w') ->
   executeProxyTransactions this transactions metadata w
     = (Returned (toResponse r), w'))
  /\
  (RelayClient.executeSafeTransactions (client this) safeTransactions metadata w
     = (Returned r, w') ->
   executeSafeTransactions this safeTransactions metadata w
     = (Returned (toResponse r), w'))
  /\
  (RelayClient.deploySafe (client this) w = (Returned r, w') ->
   deploySafe this w = (Returned (toResponse r), w'))
  /\
  Resp.transactionId (toResponse r) = Raw.transactionID r /\
  Resp.state (toResponse r) = Raw.state r /\
  Resp.hash (toResponse r) = Raw.hash r /\
  Resp.transactionHash (toResponse r) = Raw.transactionHash r.
Proof.
  repeat split.
  - intros H. unfold executeProxyTransactions. rewrite submit_shape, H. reflexivity.
  - intros H. unfold executeSafeTransactions. rewrite submit_shape, H. reflexivity.
  - intros H. unfold deploySafe. rewrite submit_shape, H. reflexivity.
Qed.

(** A deployment answered with an empty object. *)
Lemma submission_keeps_absent_fields_witness :
  deploySafe (clientOf silentRelay None) [] =
    (Returned {| Resp.transactionId := None; Resp.state := None;
                 Resp.hash := None; Resp.transactionHash := None |},
     [Sent DeploySafe]).
Proof.
  exact (proj1 (proj2 (proj2
           (submission_keeps_absent_fields (clientOf silentRelay None) [] [] None
              [] [Sent DeploySafe]
              {| Raw.transactionID := None; Raw.state := None;
                 Raw.hash := None; Raw.transactionHash := None |})))
           eq_refl).
Defined.

(** C3 as stated fails: a response without the identifier does not make any
    of the three submission methods throw; each returns a record whose
    identifier is absent. *)
Lemma submission_missing_id_not_rejected :
  let blank :=
    {| Resp.transactionId := None; Resp.state := None;
       Resp.hash := None; Resp.transactionHash := None |} in
  let this := clientOf silentRelay None in
  let call :=
    {| ptx_to := "0xCAFE"; ptx_typeCode := "1"; ptx_data := "0xdead";
       ptx_value := "0" |} in
  let safeCall :=
    {| stx_to := "0xCAFE"; stx_operation := 0%Z; stx_data := "0xdead";
       stx_value := "0" |} in
  fst (executeProxyTransactions this [call] None []) = Returned blank /\
  fst (executeSafeTransactions this [safeCall] None []) = Returned blank /\
  fst (deploySafe this []) = Returned blank /\
  ~ (forall (c : RelayerClient) (w w' : World) (r : Raw.t),
       RelayClient.deploySafe (client c) w = (Returned r, w') ->
       Raw.transactionID r = None ->
       exists e, fst (deploySafe c w) = Threw e).
Proof.
  repeat split.
  intros Hclaim.
  destruct (Hclaim (clientOf silentRelay None) [] [Sent DeploySafe]
              {| Raw.transactionID := None; Raw.state := None;
                 Raw.hash := None; Raw.transactionHash := None |}
              eq_refl eq_refl) as [e He].
  discriminate He.
Qed.

(** ** Defaults of [waitForTransaction] *)

(** C4, as the code has it.  With its optional parameters omitted,
    [waitForTransaction] uses desiredStates = ["STATE_CONFIRMED"], failState =
    "STATE_FAILED", maxPolls = 60 and pollFrequency = 2000: the call is the
    call with these four values given, each omitted parameter takes its own
    default whatever the others are, and these are the values handed to the
    transport's [pollUntilState]. *)
Theorem waitForTransaction_defaults (this : RelayerClient) (transactionId : string)
    (desiredStates : option (list string)) (failState : option string)
    (maxPolls pollFrequency : option Z) :
  waitForTransaction this transactionId None None None None =
    waitForTransaction this transactionId (Some ["STATE_CONFIRMED"])
      (Some "STATE_FAILED") (Some 60%Z) (Some 2000%Z)
  /\
  waitForTransaction this transactionId desiredStates failState maxPolls
      pollFrequency =
    waitForTransaction this transactionId
      (Some (defaulted ["STATE_CONFIRMED"] desiredStates))
      (Some (defaulted "STATE_FAILED" failState))
      (Some (defaulted 60%Z maxPolls))
      (Some (defaulted 2000%Z pollFrequency))
  /\
  forall w,
    waitForTransaction this transactionId None None None None w =
    match
      RelayClient.pollUntilState (client this) transactionId ["STATE_CONFIRMED"]
        "STATE_FAILED" 60%Z 2000%Z None w
    with
    | (Returned r, w') => (Returned r, w')
    | (Threw e, w') =>
        (Threw (newError ("Failed to wait for transaction: " ++ exn_message e)), w')
    end.
Proof.
  split; [reflexivity|]. split; [reflexivity|].
  intros w. apply waitForTransaction_unfold.
Qed.

(** C4 as stated fails: the default states are not the bare names.  A
    transport that records what its poller is called with sees
    ["STATE_CONFIRMED"] and "STATE_FAILED" when the parameters are omitted,
    not ["CONFIRMED"] and "FAILED". *)
Lemma waitForTransaction_defaults_not_bare_names :
  let this :=
    {| client := recordingClient; config := emptyConfig; walletAddress := None |} in
  snd (waitForTransaction this "tx-1" None None None None []) =
    [Sent (PollUntilState "tx-1" ["STATE_CONFIRMED"] "STATE_FAILED" 60 2000)]
  /\
  snd (waitForTransaction this "tx-1" None None None None []) <>
    [Sent (PollUntilState "tx-1" ["CONFIRMED"] "FAILED" 60 2000)]
  /\
  waitForTransaction this "tx-1" None None None None [] <>
    waitForTransaction this "tx-1" (Some ["CONFIRMED"]) (Some "FAILED")
      (Some 60%Z) (Some 2000%Z) [].
Proof.
  split; [reflexivity|]. split; discriminate.
Qed.

(** The difference shows on a relay that reports [STATE_CONFIRMED]: the call
    with the parameters omitted returns the record at the first poll, the
    call with the bare names polls sixty times and gives up. *)
Example waitForTransaction_defaults_on_confirmed_relay :
  let this := clientOf confirmedRelay None in
  let omitted := waitForTransaction this "tx-1" None None None None [] in
  let given :=
    waitForTransaction this "tx-1" (Some ["CONFIRMED"]) (Some "FAILED")
      (Some 60%Z) (Some 2000%Z) [] in
  fst omitted = Returned (Some (txRecord "tx-1" "STATE_CONFIRMED")) /\
  pollsOf "tx-1" (snd omitted) = 1 /\
  fst given = Returned None /\
  pollsOf "tx-1" (snd given) = 60.
Proof.
  repeat split; vm_compute; reflexivity.
Qed.

(** ** Construction *)

Lemma truthy_nonempty (s : string) : s <> EmptyString -> truthy (Some s) = true.
Proof.
  intros H. simpl. destruct (String.eqb_spec s EmptyString); [contradiction|reflexivity].
Qed.

Lemma backendKey_of_key (cfg : RelayerConfig) (key : string) :
  backend cfg = Some {| privateKey := Some key |} -> key <> EmptyString ->
  backendKey cfg = Some key.
Proof.
  intros Hb Hk. unfold backendKey. rewrite Hb. cbn [privateKey].
  rewrite (truthy_nonempty key Hk). reflexivity.
Qed.

Lemma createClient_auth
    (newRelayClient : string -> Z -> SignerArg -> option AuthConfig -> RelayClient.t)
    (url : string) (chain : Z) (s : SignerArg) (cfg : RelayerConfig) :
  createClient newRelayClient url chain s cfg = newRelayClient url chain s (auth cfg).
Proof. unfold createClient. destruct (auth cfg); reflexivity. Qed.

(** A configuration with a truthy backend key and a wallet for it builds the
    backend instance. *)
Lemma construct_backend
    (newWallet : string -> Outcome Wallet)
    (newRelayClient : string -> Z -> SignerArg -> option AuthConfig -> RelayClient.t)
    (cfg : RelayerConfig) (key : string) (wallet : Wallet) :
  backendKey cfg = Some key ->
  newWallet key = Returned wallet ->
  construct newWallet newRelayClient cfg =
    Returned
      {| object :=
           {| client :=
                newRelayClient (effectiveUrl cfg) (numOrElse (chainId cfg) 137)
                  (LocalWallet wallet) (auth cfg);
              config := cfg;
              walletAddress := Some (wallet_address wallet) |};
         callbackPending := false;
         callbackWrites := 0 |}.
Proof.
  intros Hkey Hwallet. unfold construct.
  assert (Hb : isSome (backend cfg) = true).
  { unfold backendKey in Hkey. destruct (backend cfg); [reflexivity|discriminate]. }
  rewrite Hb. cbn [negb andb]. rewrite Hkey, Hwallet, createClient_auth.
  reflexivity.
Qed.

(** C5. For every configuration in which neither [backend] nor [frontend] is
    set, the constructor throws at once the error that says a signing mode is
    required, and no instance, hence no relay client, comes out of it. *)
Theorem construct_requires_mode
    (newWallet : string -> Outcome Wallet)
    (newRelayClient : string -> Z -> SignerArg -> option AuthConfig -> RelayClient.t)
    (cfg : RelayerConfig) :
  backend cfg = None -> frontend cfg = None ->
  construct newWallet newRelayClient cfg = Threw (newError missingModeMessage) /\
  forall i, construct newWallet newRelayClient cfg <> Returned i.
Proof.
  intros Hb Hf.
  assert (H : construct newWallet newRelayClient cfg
              = Threw (newError missingModeMessage)).
  { unfold construct. rewrite Hb, Hf. reflexivity. }
  split; [exact H|]. intros i Hi. rewrite H in Hi. discriminate Hi.
Qed.

Lemma construct_requires_mode_witness :
  construct sampleWallet sampleRelayClient emptyConfig
    = Threw (newError missingModeMessage) /\
  forall i, construct sampleWallet sampleRelayClient emptyConfig <> Returned i.
Proof.
  exact (construct_requires_mode sampleWallet sampleRelayClient emptyConfig
           eq_refl eq_refl).
Defined.

(** C8. For every well-formed secret key (non-empty, and one ethers makes a
    wallet from), construction in backend mode derives the wallet address
    within the constructor, leaving no address resolution pending: two
    constructions from the same secret, whatever the rest of their
    configurations, yield the same address, and it is the address an
    independent derivation from that secret gives. *)
Theorem backend_address_deterministic
    (newWallet : string -> Outcome Wallet)
    (newRelayClient newRelayClient' :
       string -> Z -> SignerArg -> option AuthConfig -> RelayClient.t)
    (cfg1 cfg2 : RelayerConfig) (key : string) (wallet : Wallet) :
  backend cfg1 = Some {| privateKey := Some key |} ->
  backend cfg2 = Some {| privateKey := Some key |} ->
  key <> EmptyString ->
  newWallet key = Returned wallet ->
  exists i1 i2,
    construct newWallet newRelayClient cfg1 = Returned i1 /\
    construct newWallet newRelayClient' cfg2 = Returned i2 /\
    getWalletAddress (object i1) = Some (wallet_address wallet) /\
    getWalletAddress (object i2) = getWalletAddress (object i1) /\
    callbackPending i1 = false /\ callbackPending i2 = false.
Proof.
  intros Hb1 Hb2 Hk Hw.
  pose proof (construct_backend newWallet newRelayClient cfg1 key wallet
                (backendKey_of_key cfg1 key Hb1 Hk) Hw) as H1.
  pose proof (construct_backend newWallet newRelayClient' cfg2 key wallet
                (backendKey_of_key cfg2 key Hb2 Hk) Hw) as H2.
  eexists. eexists. split; [exact H1|]. split; [exact H2|].
  repeat split.
Qed.

Lemma backend_address_deterministic_witness :
  exists i1 i2,
    construct sampleWallet sampleRelayClient (backendConfig "0x01") = Returned i1 /\
    construct sampleWallet sampleRelayClient (bothConfig "0x01") = Returned i2 /\
    getWalletAddress (object i1) = Some "addr:0x01" /\
    getWalletAddress (object i2) = getWalletAddress (object i1) /\
    callbackPending i1 = false /\ callbackPending i2 = false.
Proof.
  refine (backend_address_deterministic sampleWallet sampleRelayClient
            sampleRelayClient (backendConfig "0x01") (bothConfig "0x01") "0x01"
            {| wallet_privateKey := "0x01"; wallet_address := "addr:0x01" |}
            eq_refl eq_refl _ eq_refl).
  discriminate.
Defined.

(** C9. For every configuration in which both [backend], with a private key
    ethers makes a wallet from, and [frontend], with a signer, are set,
    construction succeeds and the backend mode wins: the address is the one
    derived from the private key, the relay client is created with the local
    wallet, and the frontend signer plays no part (it is not handed to the
    relay client and no address resolution is left pending on it). *)
Theorem construct_backend_precedence
    (newWallet : string -> Outcome Wallet)
    (newRelayClient : string -> Z -> SignerArg -> option AuthConfig -> RelayClient.t)
    (cfg : RelayerConfig) (key : string) (s : Signer) (wallet : Wallet) :
  backend cfg = Some {| privateKey := Some key |} ->
  key <> EmptyString ->
  frontend cfg = Some {| signer := Some s |} ->
  newWallet key = Returned wallet ->
  construct newWallet newRelayClient cfg =
    Returned
      {| object :=
           {| client :=
                newRelayClient (effectiveUrl cfg) (numOrElse (chainId cfg) 137)
                  (LocalWallet wallet) (auth cfg);
              config := cfg;
              walletAddress := Some (wallet_address wallet) |};
         callbackPending := false;
         callbackWrites := 0 |}.
Proof.
  intros Hb Hk _ Hw.
  apply construct_backend with (key := key); [|exact Hw].
  apply backendKey_of_key; assumption.
Qed.

Lemma construct_backend_precedence_witness :
  construct sampleWallet sampleRelayClient (bothConfig "0x01") =
    Returned
      {| object :=
           {| client :=
                sampleRelayClient "https://relay.example" 137
                  (LocalWallet {| wallet_privateKey := "0x01";
                                  wallet_address := "addr:0x01" |})
                  (Some {| authUrl := Some "https://auth.example";
                           authToken := Some "t" |});
              config := bothConfig "0x01";
              walletAddress := Some "addr:0x01" |};
         callbackPending := false;
         callbackWrites := 0 |}.
Proof.
  refine (construct_backend_precedence sampleWallet sampleRelayClient
            (bothConfig "0x01") "0x01" browserSigner
            {| wallet_privateKey := "0x01"; wallet_address := "addr:0x01" |}
            eq_refl _ eq_refl eq_refl).
  discriminate.
Defined.

(** ** The cached wallet address *)

Lemma after_app (i : Instance) (hs1 hs2 : list Happening) :
  after i (hs1 ++ hs2)%list = after (after i hs1) hs2.
Proof. unfold after. apply fold_left_app. Qed.

Lemma after_cons (i : Instance) (h : Happening) (hs : list Happening) :
  after i (h :: hs) = after (happen i h) hs.
Proof. reflexivity. Qed.

(** With no callback waiting, nothing that happens changes the instance. *)
Lemma after_settled (hs : list Happening) :
  forall i, callbackPending i = false -> after i hs = i.
Proof.
  induction hs as [|h hs IH]; intros i Hp; [reflexivity|].
  rewrite after_cons.
  assert (Hh : happen i h = i).
  { destruct h; simpl; [rewrite Hp; reflexivity| |reflexivity].
    destruct i as [o p n]; simpl in *; subst p; reflexivity. }
  rewrite Hh. apply IH. exact Hp.
Qed.

(** Until the promise fulfils, the address and the write count stay put. *)
Lemma after_unfulfilled (hs : list Happening) :
  forall i, existsb isFulfilment hs = false ->
    walletAddress (object (after i hs)) = walletAddress (object i) /\
    callbackWrites (after i hs) = callbackWrites i.
Proof.
  induction hs as [|h hs IH]; intros i Hno; [split; reflexivity|].
  rewrite after_cons. simpl in Hno. apply orb_false_iff in Hno as [Hh Hhs].
  destruct (IH (happen i h) Hhs) as [Ha Hw]. rewrite Ha, Hw.
  destruct h; [discriminate| |]; split; reflexivity.
Qed.

(** Until the promise settles, the callback keeps waiting. *)
Lemma after_unsettled (hs : list Happening) :
  forall i, existsb isSettlement hs = false ->
    after i hs = i.
Proof.
  induction hs as [|h hs IH]; intros i Hno; [reflexivity|].
  rewrite after_cons. simpl in Hno. apply orb_false_iff in Hno as [Hh Hhs].
  destruct h; try discriminate. simpl. apply IH. exact Hhs.
Qed.

(** The callback writes at most once: a write uses up the waiting callback. *)
Lemma after_writes_bound (hs : list Happening) :
  forall i,
    callbackWrites i + (if callbackPending i then 1 else 0) <= 1 ->
    callbackWrites (after i hs) + (if callbackPending (after i hs) then 1 else 0) <= 1.
Proof.
  induction hs as [|h hs IH]; intros i Hi; [exact Hi|].
  rewrite after_cons. apply IH.
  destruct h; simpl.
  - destruct (callbackPending i) eqn:Hp; simpl; [lia|rewrite Hp; exact Hi].
  - destruct (callbackPending i); lia.
  - exact Hi.
Qed.

(** A configuration without a truthy backend key that constructs does so in
    frontend mode. *)
Lemma construct_frontend
    (newWallet : string -> Outcome Wallet)
    (newRelayClient : string -> Z -> SignerArg -> option AuthConfig -> RelayClient.t)
    (cfg : RelayerConfig) (i : Instance) :
  construct newWallet newRelayClient cfg = Returned i ->
  backendKey cfg = None ->
  exists s,
    frontendSigner cfg = Some s /\
    i = {| object :=
             {| client :=
                  newRelayClient (effectiveUrl cfg) (numOrElse (chainId cfg) 137)
                    (ProvidedSigner s) (auth cfg);
                config := cfg;
                walletAddress := None |};
           callbackPending := hasGetAddress s;
           callbackWrites := 0 |}.
Proof.
  intros Hc Hkey. unfold construct in Hc.
  destruct (negb (isSome (backend cfg)) && negb (isSome (frontend cfg)));
    [discriminate|].
  rewrite Hkey in Hc.
  destruct (frontendSigner cfg) as [s|]; [|discriminate].
  exists s. split; [reflexivity|].
  rewrite createClient_auth in Hc. injection Hc as <-. reflexivity.
Qed.

(** A configuration with a truthy backend key that constructs does so in
    backend mode, with the wallet of that key. *)
Lemma construct_backend_inv
    (newWallet : string -> Outcome Wallet)
    (newRelayClient : string -> Z -> SignerArg -> option AuthConfig -> RelayClient.t)
    (cfg : RelayerConfig) (i : Instance) (key : string) :
  construct newWallet newRelayClient cfg = Returned i ->
  backendKey cfg = Some key ->
  exists wallet,
    newWallet key = Returned wallet /\
    walletAddress (object i) = Some (wallet_address wallet) /\
    callbackPending i = false /\ callbackWrites i = 0.
Proof.
  intros Hc Hkey.
  destruct (newWallet key) as [wallet|e] eqn:Hw.
  - rewrite (construct_backend newWallet newRelayClient cfg key wallet Hkey Hw) in Hc.
    injection Hc as <-. exists wallet. repeat split.
  - unfold construct in Hc.
    destruct (negb (isSome (backend cfg)) && negb (isSome (frontend cfg)));
      [discriminate|].
    rewrite Hkey, Hw in Hc. discriminate.
Qed.

(** In frontend mode the cached address stays [undefined], and unwritten,
    as long as the promise has not fulfilled. *)
Lemma frontend_address_unresolved
    (newWallet : string -> Outcome Wallet)
    (newRelayClient : string -> Z -> SignerArg -> option AuthConfig -> RelayClient.t)
    (cfg : RelayerConfig) (i : Instance) (hs : list Happening) :
  construct newWallet newRelayClient cfg = Returned i ->
  backendKey cfg = None ->
  existsb isFulfilment hs = false ->
  walletAddress (object (after i hs)) = None /\
  callbackWrites (after i hs) = 0.
Proof.
  intros Hc Hkey Hno.
  destruct (construct_frontend newWallet newRelayClient cfg i Hc Hkey)
    as (s & _ & Hi).
  destruct (after_unfulfilled hs i Hno) as [Ha Hw]. rewrite Ha, Hw, Hi.
  split; reflexivity.
Qed.

(** C10. After construction in backend mode, [getWalletAddress] returns the
    derived address whatever happens afterwards, and the resolution callback
    never writes it.  In frontend mode it returns [undefined] as long as the
    signer's address promise has not fulfilled; once the promise fulfils it
    returns the resolved address, the callback having written it exactly
    once, and the callback never writes more than once. *)
Theorem walletAddress_lifecycle
    (newWallet : string -> Outcome Wallet)
    (newRelayClient : string -> Z -> SignerArg -> option AuthConfig -> RelayClient.t)
    (cfg : RelayerConfig) (i : Instance) :
  construct newWallet newRelayClient cfg = Returned i ->
  (forall key, backendKey cfg = Some key ->
     exists wallet,
       newWallet key = Returned wallet /\
       forall hs,
         getWalletAddress (object (after i hs)) = Some (wallet_address wallet) /\
         callbackWrites (after i hs) = 0)
  /\
  (backendKey cfg = None ->
     exists s,
       frontendSigner cfg = Some s /\
       callbackPending i = hasGetAddress s /\
       (forall hs, existsb isFulfilment hs = false ->
          getWalletAddress (object (after i hs)) = None /\
          callbackWrites (after i hs) = 0) /\
       (forall hs1 addr hs2,
          hasGetAddress s = true ->
          existsb isSettlement hs1 = false ->
          let i' := after i (hs1 ++ AddressFulfilled addr :: hs2)%list in
          getWalletAddress (object i') = Some addr /\ callbackWrites i' = 1) /\
       (forall hs, callbackWrites (after i hs) <= 1)).
Proof.
  intros Hc. split.
  - intros key Hkey.
    destruct (construct_backend_inv newWallet newRelayClient cfg i key Hc Hkey)
      as (wallet & Hw & Ha & Hp & Hn).
    exists wallet. split; [exact Hw|]. intros hs.
    rewrite (after_settled hs i Hp). split; assumption.
  - intros Hkey.
    destruct (construct_frontend newWallet newRelayClient cfg i Hc Hkey)
      as (s & Hs & Hi).
    assert (Ha0 : walletAddress (object i) = None) by (rewrite Hi; reflexivity).
    assert (Hp0 : callbackPending i = hasGetAddress s) by (rewrite Hi; reflexivity).
    assert (Hn0 : callbackWrites i = 0) by (rewrite Hi; reflexivity).
    clear Hi Hc.
    exists s. split; [exact Hs|]. split; [exact Hp0|].
    split; [|split].
    + intros hs Hno. unfold getWalletAddress.
      destruct (after_unfulfilled hs i Hno) as [Ha Hw]. rewrite Ha, Hw.
      split; assumption.
    + intros hs1 addr hs2 Hget Hno i'. unfold i'.
      rewrite after_app, (after_unsettled hs1 i Hno), after_cons.
      simpl happen. rewrite Hp0, Hget, Hn0. rewrite after_settled by reflexivity.
      split; reflexivity.
    + intros hs.
      pose proof (after_writes_bound hs i) as Hb.
      rewrite Hn0 in Hb.
      assert (H0 : 0 + (if callbackPending i then 1 else 0) <= 1)
        by (destruct (callbackPending i); lia).
      specialize (Hb H0). lia.
Qed.

(** A frontend instance, before and after its signer's address arrives; a
    second fulfilment would find no callback left to run. *)
Lemma walletAddress_lifecycle_witness :
  exists i,
    construct sampleWallet sampleRelayClient frontendConfig = Returned i /\
    getWalletAddress (object (after i [MethodRan MGetNonce])) = None /\
    (let i' :=
       after i [MethodRan MGetNonce; AddressFulfilled "0xABC";
                AddressFulfilled "0xDEF"] in
     getWalletAddress (object i') = Some "0xABC" /\ callbackWrites i' = 1).
Proof.
  eexists. split; [reflexivity|].
  destruct (proj2 (walletAddress_lifecycle sampleWallet sampleRelayClient
                     frontendConfig _ eq_refl) eq_refl)
    as (s & Hs & _ & Hnone & Hresolved & _).
  injection Hs as <-.
  split.
  - exact (proj1 (Hnone [MethodRan MGetNonce] eq_refl)).
  - exact (Hresolved [MethodRan MGetNonce] "0xABC" [AddressFulfilled "0xDEF"]
             eq_refl eq_refl).
Defined.

(** ** The nonce *)

Lemma getNonce_with_cached_address (this : RelayerClient) (addr : string)
    (signerType : option string) (w : World) :
  walletAddress this = Some addr -> addr <> EmptyString ->
  getNonce this None signerType w =
    match
      RelayClient.getNonce (client this) addr (defaulted "EOA" signerType) w
    with
    | (Returned r, w') => (Returned (nr_nonce r), w')
    | (Threw e, w') =>
        (Threw (newError ("Failed to get nonce: " ++ exn_message e)), w')
    end.
Proof.
  intros Ha Hne. unfold getNonce, tryCatch, orElse.
  change (truthy None) with false. cbv iota.
  rewrite Ha, (truthy_nonempty addr Hne). cbn [negb]. unfold bind, ret, throw.
  destruct (RelayClient.getNonce (client this) addr (defaulted "EOA" signerType) w)
    as [[r|e] w']; reflexivity.
Qed.

Lemma getNonce_without_address (this : RelayerClient) (explicit : option string)
    (signerType : option string) (w : World) :
  truthy explicit = false -> truthy (walletAddress this) = false ->
  getNonce this explicit signerType w =
    (Threw (newError ("Failed to get nonce: " ++ noAddressMessage)), w).
Proof.
  intros He Hw. unfold getNonce, tryCatch, orElse. rewrite He.
  destruct (walletAddress this) as [a|]; [|reflexivity].
  rewrite Hw. reflexivity.
Qed.

(** C6. For every call to [getNonce] with the address omitted, the cached
    address of the configured signer is the one the relay is asked about.
    With neither an explicit address nor a cached one the call fails with the
    "No wallet address available" error and nothing is sent to the relay; this
    is the case of an instance built in frontend mode for as long as the
    signer's address promise has not fulfilled.  Once the (non-empty) address
    has been resolved, the identical call returns the nonce the relay
    reports. *)
Theorem getNonce_address_resolution
    (newWallet : string -> Outcome Wallet)
    (newRelayClient : string -> Z -> SignerArg -> option AuthConfig -> RelayClient.t)
    (cfg : RelayerConfig) (i : Instance) (this : RelayerClient)
    (signerType : option string) (w : World) :
  (forall addr,
      walletAddress this = Some addr -> addr <> EmptyString ->
      getNonce this None signerType w =
        match
          RelayClient.getNonce (client this) addr (defaulted "EOA" signerType) w
        with
        | (Returned r, w') => (Returned (nr_nonce r), w')
        | (Threw e, w') =>
            (Threw (newError ("Failed to get nonce: " ++ exn_message e)), w')
        end)
  /\
  (forall explicit,
      truthy explicit = false -> truthy (walletAddress this) = false ->
      getNonce this explicit signerType w =
        (Threw (newError ("Failed to get nonce: " ++ noAddressMessage)), w))
  /\
  (construct newWallet newRelayClient cfg = Returned i ->
   backendKey cfg = None ->
   (forall hs,
       existsb isFulfilment hs = false ->
       getNonce (object (after i hs)) None signerType w =
         (Threw (newError ("Failed to get nonce: " ++ noAddressMessage)), w))
   /\
   (forall hs addr r w',
       getWalletAddress (object (after i hs)) = Some addr -> addr <> EmptyString ->
       RelayClient.getNonce (client (object (after i hs))) addr
         (defaulted "EOA" signerType) w = (Returned r, w') ->
       getNonce (object (after i hs)) None signerType w
         = (Returned (nr_nonce r), w'))).
Proof.
  split; [|split].
  - intros addr Ha Hne. apply getNonce_with_cached_address; assumption.
  - intros explicit He Hw. apply getNonce_without_address; assumption.
  - intros Hc Hkey. split.
    + intros hs Hno. apply getNonce_without_address; [reflexivity|].
      rewrite (proj1 (frontend_address_unresolved newWallet newRelayClient cfg i hs
                        Hc Hkey Hno)).
      reflexivity.
    + intros hs addr r w' Ha Hne Hrelay.
      rewrite (getNonce_with_cached_address _ addr signerType w Ha Hne), Hrelay.
      reflexivity.
Qed.

Lemma getNonce_address_resolution_witness :
  exists i,
    construct sampleWallet sampleRelayClient frontendConfig = Returned i /\
    getNonce (object i) None None [] =
      (Threw (newError ("Failed to get nonce: " ++ noAddressMessage)), []) /\
    getNonce (object (after i [AddressFulfilled "0xABC"])) None None [] =
      (Returned "7", [Sent (GetNonce "0xABC" "EOA")]).
Proof.
  eexists. split; [reflexivity|].
  destruct (proj2 (proj2 (getNonce_address_resolution sampleWallet
                            sampleRelayClient frontendConfig _
                            (clientOf stuckRelay None) None []))
              eq_refl eq_refl) as [Hbefore Hafter].
  split.
  - exact (Hbefore [] eq_refl).
  - refine (Hafter [AddressFulfilled "0xABC"] "0xABC" {| nr_nonce := "7" |}
              [Sent (GetNonce "0xABC" "EOA")] eq_refl _ eq_refl).
    discriminate.
Defined.

(** ** Cancellation *)

(** Without a signal, the poll loop throws only what one of its polls threw. *)
Lemma pollLoop_threw (relay : Relay) (id : string) (desired : list string)
    (fail : string) (ms : Z) (remaining : nat) :
  forall (waitNo : nat) (w w' : World) (e : Exn),
    pollLoop (queryCurrent relay) id desired fail ms None remaining waitNo w
      = (Threw e, w') ->
    exists j, j <= remaining /\ current relay id (pollsOf id w + j) = Threw e.
Proof.
  induction remaining as [|n IH]; intros waitNo w w' e H;
    rewrite pollLoop_turn in H; cbv zeta in H;
    destruct (current relay id (pollsOf id w)) as [record|e0] eqn:Hcur.
  - destruct (includes desired (tr_state record)); [discriminate|].
    destruct (tr_state record =? fail); discriminate.
  - injection H as <- _. exists 0. rewrite Nat.add_0_r. split; [lia|exact Hcur].
  - destruct (includes desired (tr_state record)); [discriminate|].
    destruct (tr_state record =? fail); [discriminate|].
    apply IH in H. destruct H as (j & Hj & Hthrew).
    rewrite pollsOf_slept, pollsOf_poll in Hthrew.
    exists (S j). split; [lia|].
    replace (pollsOf id w + S j) with (S (pollsOf id w) + j) by lia.
    exact Hthrew.
  - injection H as <- _. exists 0. rewrite Nat.add_0_r. split; [lia|exact Hcur].
Qed.

(** Whatever [waitForTransaction] throws was made by [new Error]. *)
Lemma waitForTransaction_cancel_free (this : RelayerClient)
    (transactionId : string) (desiredStates : option (list string))
    (failState : option string) (maxPolls pollFrequency : option Z) (w : World) :
  waitForTransaction this transactionId desiredStates failState maxPolls
    pollFrequency w =
  match
    RelayClient.pollUntilState (client this) transactionId
      (defaulted ["STATE_CONFIRMED"] desiredStates)
      (defaulted "STATE_FAILED" failState)
      (defaulted 60%Z maxPolls) (defaulted 2000%Z pollFrequency) None w
  with
  | (Returned r, w') => (Returned r, w')
  | (Threw e, w') =>
      (Threw (newError ("Failed to wait for transaction: " ++ exn_message e)), w')
  end
  /\
  (forall e,
      fst (waitForTransaction this transactionId desiredStates failState maxPolls
             pollFrequency w) = Threw e ->
      exn_name e = "Error" /\ e <> cancelled).
Proof.
  split; [apply waitForTransaction_unfold|].
  intros e He. rewrite waitForTransaction_unfold in He.
  destruct (RelayClient.pollUntilState _ _ _ _ _ _ _ _) as [[r|e0] w'];
    [discriminate|].
  injection He as <-. split; [reflexivity|discriminate].
Qed.

(** C7, as the code has it.  [waitForTransaction] takes no cancellation signal
    and hands none to the poller, so nothing interrupts its waits: whatever it
    throws is an [Error] named "Error", never [Cancelled], and over a relay it
    is the error of one of the polls, rethrown with the message "Failed to
    wait for transaction: " in front; otherwise the call ends as the poll
    rules say. *)
Theorem waitForTransaction_never_cancelled (this : RelayerClient) (relay : Relay)
    (transactionId : string) (desiredStates : option (list string))
    (failState : option string) (maxPolls pollFrequency : option Z) (w : World) :
  let run :=
    waitForTransaction this transactionId desiredStates failState maxPolls
      pollFrequency w in
  run =
    match
      RelayClient.pollUntilState (client this) transactionId
        (defaulted ["STATE_CONFIRMED"] desiredStates)
        (defaulted "STATE_FAILED" failState)
        (defaulted 60%Z maxPolls) (defaulted 2000%Z pollFrequency) None w
    with
    | (Returned r, w') => (Returned r, w')
    | (Threw e, w') =>
        (Threw (newError ("Failed to wait for transaction: " ++ exn_message e)), w')
    end
  /\
  (forall e, fst run = Threw e -> exn_name e = "Error" /\ e <> cancelled)
  /\
  (client this = scripted relay ->
   forall e, fst run = Threw e ->
     exists j e0,
       current relay transactionId (pollsOf transactionId w + j) = Threw e0 /\
       e = newError ("Failed to wait for transaction: " ++ exn_message e0)).
Proof.
  intros run.
  assert (Hrun : run = _) by apply waitForTransaction_unfold.
  split; [exact Hrun|]. split.
  - apply waitForTransaction_cancel_free.
  - intros Hclient e He. rewrite Hrun, Hclient in He.
    cbn [RelayClient.pollUntilState scripted] in He.
    unfold specPollUntilState in He.
    destruct (pollLoop _ _ _ _ _ _ _ _ _) as [[r|e0] w'] eqn:Hloop;
      [discriminate|].
    injection He as <-.
    apply pollLoop_threw in Hloop. destruct Hloop as (j & _ & Hj).
    exists j, e0. split; [exact Hj|reflexivity].
Qed.

(** A wait on a relay whose polls fail: the poll's error, wrapped. *)
Lemma waitForTransaction_never_cancelled_witness :
  exists j e0,
    current rejectingRelay "tx-1" (pollsOf "tx-1" [] + j) = Threw e0 /\
    newError "Failed to wait for transaction: rejected" =
      newError ("Failed to wait for transaction: " ++ exn_message e0).
Proof.
  exact (proj2 (proj2 (waitForTransaction_never_cancelled
                         (clientOf rejectingRelay None) rejectingRelay "tx-1"
                         None None None None []))
           eq_refl (newError "Failed to wait for transaction: rejected") eq_refl).
Defined.

(** C7 as stated fails.  The poller handed a raised signal is cancelled during
    its first wait, but [waitForTransaction] has no way to be handed one: on
    the same relay it sleeps through both waits of a three-poll budget and
    returns the "not reached" sentinel. *)
Lemma waitForTransaction_cancellation_unavailable :
  fst (specPollUntilState (queryCurrent stuckRelay) "tx-1" ["STATE_CONFIRMED"]
         "STATE_FAILED" 3%Z 2000%Z (Some raisedAtOnce) []) = Threw cancelled
  /\
  (forall desiredStates failState maxPolls pollFrequency w,
      fst (waitForTransaction (clientOf stuckRelay None) "tx-1" desiredStates
             failState maxPolls pollFrequency w) <> Threw cancelled)
  /\
  waitForTransaction (clientOf stuckRelay None) "tx-1" None None (Some 3%Z) None []
    = (Returned None,
       [Sent (GetTransaction "tx-1"); Slept 2000;
        Sent (GetTransaction "tx-1"); Slept 2000;
        Sent (GetTransaction "tx-1")]).
Proof.
  split; [reflexivity|]. split; [|reflexivity].
  intros desiredStates failState maxPolls pollFrequency w H.
  destruct (proj2 (waitForTransaction_cancel_free (clientOf stuckRelay None)
                     "tx-1" desiredStates failState maxPolls pollFrequency w)
              cancelled H) as [_ Hne].
  apply Hne. reflexivity.
Qed.

(** * Further properties of the module *)

(** ** Outcomes of the constructor *)

Lemma backendKey_none_of_falsy (cfg : RelayerConfig) :
  (forall b, backend cfg = Some b -> truthy (privateKey b) = false) ->
  backendKey cfg = None.
Proof.
  intros H. unfold backendKey. destruct (backend cfg) as [b|]; [|reflexivity].
  rewrite (H b eq_refl). reflexivity.
Qed.

Lemma construct_frontend_mode
    (newWallet : string -> Outcome Wallet)
    (newRelayClient : string -> Z -> SignerArg -> option AuthConfig -> RelayClient.t)
    (cfg : RelayerConfig) (s : Signer) :
  backendKey cfg = None -> frontendSigner cfg = Some s ->
  construct newWallet newRelayClient cfg =
    Returned
      {| object :=
           {| client :=
                newRelayClient (effectiveUrl cfg) (numOrElse (chainId cfg) 137)
                  (ProvidedSigner s) (auth cfg);
              config := cfg;
              walletAddress := None |};
         callbackPending := hasGetAddress s;
         callbackWrites := 0 |}.
Proof.
  intros Hkey Hs. unfold construct.
  assert (Hf : isSome (frontend cfg) = true).
  { unfold frontendSigner in Hs. destruct (frontend cfg); [reflexivity|discriminate]. }
  rewrite Hf, andb_false_r, Hkey, Hs, createClient_auth. reflexivity.
Qed.

(** A configuration in which [backend] or [frontend] is set, but with neither
    a usable private key (missing or empty) nor a signer, is turned down with
    the error "Invalid relayer configuration", not with the one that asks for
    a signing mode. *)
Theorem construct_invalid_configuration
    (newWallet : string -> Outcome Wallet)
    (newRelayClient : string -> Z -> SignerArg -> option AuthConfig -> RelayClient.t)
    (cfg : RelayerConfig) :
  isSome (backend cfg) || isSome (frontend cfg) = true ->
  (forall b, backend cfg = Some b -> truthy (privateKey b) = false) ->
  (forall f, frontend cfg = Some f -> signer f = None) ->
  construct newWallet newRelayClient cfg =
    Threw (newError "Invalid relayer configuration").
Proof.
  intros Hset Hb Hf. unfold construct.
  rewrite (backendKey_none_of_falsy cfg Hb).
  assert (Hs : frontendSigner cfg = None).
  { unfold frontendSigner. destruct (frontend cfg) as [f|]; [|reflexivity].
    exact (Hf f eq_refl). }
  rewrite Hs.
  destruct (isSome (backend cfg)), (isSome (frontend cfg));
    try discriminate Hset; reflexivity.
Qed.

Lemma construct_invalid_configuration_witness :
  construct sampleWallet sampleRelayClient keylessConfig =
    Threw (newError "Invalid relayer configuration").
Proof.
  refine (construct_invalid_configuration sampleWallet sampleRelayClient
            keylessConfig eq_refl _ _).
  - intros b Hb. injection Hb as <-. reflexivity.
  - intros f Hf. discriminate Hf.
Defined.

(** When ethers refuses the private key, the constructor throws ethers' own
    error, unwrapped, and does not fall back on a frontend signer that the
    configuration may also carry. *)
Theorem construct_malformed_key
    (newWallet : string -> Outcome Wallet)
    (newRelayClient : string -> Z -> SignerArg -> option AuthConfig -> RelayClient.t)
    (cfg : RelayerConfig) (key : string) (e : Exn) :
  backend cfg = Some {| privateKey := Some key |} ->
  key <> EmptyString ->
  newWallet key = Threw e ->
  construct newWallet newRelayClient cfg = Threw e.
Proof.
  intros Hb Hk Hw. unfold construct.
  rewrite (backendKey_of_key cfg key Hb Hk), Hw, Hb. reflexivity.
Qed.

Lemma construct_malformed_key_witness :
  construct sampleWallet sampleRelayClient (bothConfig "deadbeef") =
    Threw {| exn_name := "TypeError"; exn_message := "invalid private key" |}.
Proof.
  refine (construct_malformed_key sampleWallet sampleRelayClient
            (bothConfig "deadbeef") "deadbeef" _ eq_refl _ eq_refl).
  discriminate.
Defined.





(** A relay URL that is the empty string and a chain id that is 0 count as
    not given: the transport of every constructed client is created with the
    configured URL, or the default one when it is missing or empty, with the
    configured chain id, or 137 when it is missing or 0, and with the
    credentials of the configuration just as they are. *)
Theorem construct_transport_arguments
    (newWallet : string -> Outcome Wallet)
    (newRelayClient : string -> Z -> SignerArg -> option AuthConfig -> RelayClient.t)
    (cfg : RelayerConfig) (i : Instance) :
  construct newWallet newRelayClient cfg = Returned i ->
  exists arg,
    client (object i) =
      newRelayClient
        (match relayerUrl cfg with
         | Some u => if u =? EmptyString then DEFAULT_RELAYER_URL else u
         | None => DEFAULT_RELAYER_URL
         end)
        (match chainId cfg with
         | Some n => if (n =? 0)%Z then 137%Z else n
         | None => 137%Z
         end)
        arg (auth cfg) /\
    ((exists key wallet,
         backendKey cfg = Some key /\ newWallet key = Returned wallet /\
         arg = LocalWallet wallet)
     \/
     (exists s,
         backendKey cfg = None /\ frontendSigner cfg = Some s /\
         arg = ProvidedSigner s)).
Proof.
  intros Hc.
  assert (Hurl : effectiveUrl cfg =
                 match relayerUrl cfg with
                 | Some u => if u =? EmptyString then DEFAULT_RELAYER_URL else u
                 | None => DEFAULT_RELAYER_URL
                 end).
  { unfold effectiveUrl, orElse, truthy.
    destruct (relayerUrl cfg) as [u|]; [|reflexivity].
    destruct (u =? EmptyString); reflexivity. }
  destruct (backendKey cfg) as [key|] eqn:Hkey.
  - destruct (construct_backend_inv newWallet newRelayClient cfg i key Hc Hkey)
      as (wallet & Hw & _).
    rewrite (construct_backend newWallet newRelayClient cfg key wallet Hkey Hw) in Hc.
    injection Hc as <-. exists (LocalWallet wallet). cbn [object client].
    rewrite Hurl. split; [reflexivity|].
    left. exists key, wallet. repeat split; assumption.
  - destruct (construct_frontend newWallet newRelayClient cfg i Hc Hkey)
      as (s & Hs & Hi).
    subst i. exists (ProvidedSigner s). cbn [object client].
    rewrite Hurl. split; [reflexivity|].
    right. exists s. repeat split; assumption.
Qed.

Lemma construct_transport_arguments_witness :
  exists i arg,
    construct sampleWallet echoRelayClient (falsyOptionsConfig "0x01") = Returned i /\
    client (object i) = echoRelayClient DEFAULT_RELAYER_URL 137 arg None.
Proof.
  eexists.
  destruct (construct_transport_arguments sampleWallet echoRelayClient
              (falsyOptionsConfig "0x01") _ eq_refl) as (arg & Hclient & _).
  exists arg. split; [reflexivity|exact Hclient].
Defined.



(** ** What stays the same after construction *)

Lemma happen_client_config (i : Instance) (h : Happening) :
  client (object (happen i h)) = client (object i) /\
  config (object (happen i h)) = config (object i).
Proof.
  destruct h; simpl; [destruct (callbackPending i)| |]; split; reflexivity.
Qed.

Lemma after_client_config (hs : list Happening) :
  forall i,
    client (object (after i hs)) = client (object i) /\
    config (object (after i hs)) = config (object i).
Proof.
  induction hs as [|h hs IH]; intros i; [split; reflexivity|].
  rewrite after_cons. destruct (IH (happen i h)) as [Hc Hg].
  destruct (happen_client_config i h) as [Hc' Hg'].
  rewrite Hc, Hg, Hc', Hg'. split; reflexivity.
Qed.




Lemma getNonce_explicit (this : RelayerClient) (addr : string)
    (signerType : option string) (w : World) :
  addr <> EmptyString ->
  getNonce this (Some addr) signerType w =
    match
      RelayClient.getNonce (client this) addr (defaulted "EOA" signerType) w
    with
    | (Returned r, w') => (Returned (nr_nonce r), w')
    | (Threw e, w') =>
        (Threw (newError ("Failed to get nonce: " ++ exn_message e)), w')
    end.
Proof.
  intros Hne. unfold getNonce, tryCatch, orElse.
  rewrite (truthy_nonempty addr Hne). cbv iota.
  rewrite (truthy_nonempty addr Hne). cbn [negb]. unfold bind, ret, throw.
  destruct (RelayClient.getNonce (client this) addr (defaulted "EOA" signerType) w)
    as [[r|e] w']; reflexivity.
Qed.

(** Every method other than [getNonce] with its address left out does the
    same whether or not the signer's address has been resolved: submissions
    and queries of a frontend client do not wait for the address. *)
Theorem methods_do_not_depend_on_address (i : Instance) (hs : list Happening)
    (w : World) :
  let before := object i in
  let later := object (after i hs) in
  getRelayerAddress later w = getRelayerAddress before w /\
  (forall txs metadata,
      executeProxyTransactions later txs metadata w
      = executeProxyTransactions before txs metadata w) /\
  (forall txs metadata,
      executeSafeTransactions later txs metadata w
      = executeSafeTransactions before txs metadata w) /\
  deploySafe later w = deploySafe before w /\
  (forall id, getTransaction later id w = getTransaction before id w) /\
  getTransactions later w = getTransactions before w /\
  (forall id desiredStates failState maxPolls pollFrequency,
      waitForTransaction later id desiredStates failState maxPolls pollFrequency w
      = waitForTransaction before id desiredStates failState maxPolls
          pollFrequency w) /\
  (forall addr signerType,
      addr <> EmptyString ->
      getNonce later (Some addr) signerType w
      = getNonce before (Some addr) signerType w).
Proof.
  intros before later.
  assert (Hclient : client later = client before)
    by exact (proj1 (after_client_config hs i)).
  unfold getRelayerAddress, executeProxyTransactions, executeSafeTransactions,
    deploySafe, getTransaction, getTransactions, waitForTransaction.
  rewrite Hclient. repeat split.
  intros addr signerType Hne.
  rewrite !getNonce_explicit by exact Hne. rewrite Hclient. reflexivity.
Qed.

Lemma methods_do_not_depend_on_address_witness :
  getNonce
    (object (after {| object := clientOf stuckRelay None;
                      callbackPending := true; callbackWrites := 0 |}
               [AddressFulfilled "0xABC"]))
    (Some "0xDEF") None []
  = getNonce (clientOf stuckRelay None) (Some "0xDEF") None [].
Proof.
  refine (proj2 (proj2 (proj2 (proj2 (proj2 (proj2 (proj2
            (methods_do_not_depend_on_address
               {| object := clientOf stuckRelay None;
                  callbackPending := true; callbackWrites := 0 |}
               [AddressFulfilled "0xABC"] []))))))) "0xDEF" None _).
  discriminate.
Defined.

(** ** The nonce, with an address given *)

(** An address passed to [getNonce] wins over the cached one: when it is not
    the empty string, the relay is asked once, about that address, with the
    signer type given ("EOA" only when it is left out), whatever the cached
    address is and even when there is none.  An empty string is treated as
    no address: the call is the call with the address left out. *)
Theorem getNonce_explicit_address (this : RelayerClient) (relay : Relay)
    (addr : string) (signerType : option string) (w : World) :
  client this = scripted relay ->
  addr <> EmptyString ->
  let run := getNonce this (Some addr) signerType w in
  let kind := defaulted "EOA" signerType in
  snd run = (w ++ [Sent (GetNonce addr kind)])%list /\
  fst run =
    match nonceFor relay addr kind w with
    | Returned r => Returned (nr_nonce r)
    | Threw e => Threw (newError ("Failed to get nonce: " ++ exn_message e))
    end /\
  getNonce this (Some EmptyString) signerType w = getNonce this None signerType w.
Proof.
  intros Hclient Hne run kind. unfold run.
  rewrite (getNonce_explicit this addr signerType w Hne), Hclient.
  cbn [RelayClient.getNonce scripted]. unfold request. fold kind.
  destruct (nonceFor relay addr kind w); repeat split.
Qed.

Lemma getNonce_explicit_address_witness :
  let run := getNonce (clientOf rejectingRelay (Some "0xCACHED")) (Some "0xABC")
               (Some EmptyString) [] in
  snd run = [Sent (GetNonce "0xABC" EmptyString)] /\
  fst run = Threw (newError "Failed to get nonce: rejected").
Proof.
  destruct (getNonce_explicit_address (clientOf rejectingRelay (Some "0xCACHED"))
              rejectingRelay "0xABC" (Some EmptyString) [] eq_refl)
    as (Hw & Hr & _).
  - discriminate.
  - split; [exact Hw|exact Hr].
Defined.

(** ** Addresses that never arrive *)

(** With a frontend signer that has no [getAddress] function, nothing is ever
    cached: whatever happens later, [getWalletAddress] returns [undefined] and
    [getNonce] without an address fails before anything is sent. *)
Theorem signer_without_getAddress_never_resolves
    (newWallet : string -> Outcome Wallet)
    (newRelayClient : string -> Z -> SignerArg -> option AuthConfig -> RelayClient.t)
    (cfg : RelayerConfig) (i : Instance) (s : Signer) (hs : list Happening)
    (signerType : option string) (w : World) :
  construct newWallet newRelayClient cfg = Returned i ->
  backendKey cfg = None ->
  frontendSigner cfg = Some s ->
  hasGetAddress s = false ->
  getWalletAddress (object (after i hs)) = None /\
  getNonce (object (after i hs)) None signerType w =
    (Threw (newError ("Failed to get nonce: " ++ noAddressMessage)), w).
Proof.
  intros Hc Hkey Hs Hget.
  rewrite (construct_frontend_mode newWallet newRelayClient cfg s Hkey Hs) in Hc.
  injection Hc as <-.
  rewrite after_settled by (simpl; exact Hget).
  split; [reflexivity|].
  apply getNonce_without_address; reflexivity.
Qed.

Lemma signer_without_getAddress_never_resolves_witness :
  exists i,
    construct sampleWallet sampleRelayClient (emptyKeyConfig bareSigner)
      = Returned i /\
    getWalletAddress (object (after i [AddressFulfilled "0xABC"])) = None /\
    getNonce (object (after i [AddressFulfilled "0xABC"])) None None [] =
      (Threw (newError ("Failed to get nonce: " ++ noAddressMessage)), []).
Proof.
  eexists. split; [reflexivity|].
  exact (signer_without_getAddress_never_resolves sampleWallet sampleRelayClient
           (emptyKeyConfig bareSigner) _ bareSigner [AddressFulfilled "0xABC"]
           None [] eq_refl eq_refl eq_refl eq_refl).
Defined.

(** When the signer's address promise rejects, the constructor's callback is
    never run: the address stays [undefined] for good, with no write. *)
Theorem rejected_address_is_never_cached
    (newWallet : string -> Outcome Wallet)
    (newRelayClient : string -> Z -> SignerArg -> option AuthConfig -> RelayClient.t)
    (cfg : RelayerConfig) (i : Instance) (hs1 hs2 : list Happening) :
  construct newWallet newRelayClient cfg = Returned i ->
  backendKey cfg = None ->
  existsb isFulfilment hs1 = false ->
  let i' := after i (hs1 ++ AddressRejected :: hs2)%list in
  getWalletAddress (object i') = None /\ callbackWrites i' = 0.
Proof.
  intros Hc Hkey Hno i'. unfold i'.
  destruct (frontend_address_unresolved newWallet newRelayClient cfg i hs1
              Hc Hkey Hno) as [Ha Hw].
  rewrite after_app, after_cons.
  rewrite (after_settled hs2) by reflexivity.
  simpl. unfold getWalletAddress. split; assumption.
Qed.

Lemma rejected_address_is_never_cached_witness :
  exists i,
    construct sampleWallet sampleRelayClient frontendConfig = Returned i /\
    (let i' := after i [MethodRan MGetNonce; AddressRejected;
                        AddressFulfilled "0xABC"] in
     getWalletAddress (object i') = None /\ callbackWrites i' = 0).
Proof.
  eexists. split; [reflexivity|].
  exact (rejected_address_is_never_cached sampleWallet sampleRelayClient
           frontendConfig _ [MethodRan MGetNonce] [AddressFulfilled "0xABC"]
           eq_refl eq_refl eq_refl).
Defined.

(** In backend mode [getNonce] without an address asks the transport made by
    the constructor about the address derived from the key, at any time
    after construction. *)
Theorem backend_getNonce_uses_derived_address
    (newWallet : string -> Outcome Wallet)
    (newRelayClient : string -> Z -> SignerArg -> option AuthConfig -> RelayClient.t)
    (cfg : RelayerConfig) (i : Instance) (key : string) (wallet : Wallet)
    (hs : list Happening) (signerType : option string) (w : World) :
  construct newWallet newRelayClient cfg = Returned i ->
  backendKey cfg = Some key ->
  newWallet key = Returned wallet ->
  wallet_address wallet <> EmptyString ->
  getNonce (object (after i hs)) None signerType w =
    match
      RelayClient.getNonce
        (newRelayClient (effectiveUrl cfg) (numOrElse (chainId cfg) 137)
           (LocalWallet wallet) (auth cfg))
        (wallet_address wallet) (defaulted "EOA" signerType) w
    with
    | (Returned r, w') => (Returned (nr_nonce r), w')
    | (Threw e, w') =>
        (Threw (newError ("Failed to get nonce: " ++ exn_message e)), w')
    end.
Proof.
  intros Hc Hkey Hw Hne.
  rewrite (construct_backend newWallet newRelayClient cfg key wallet Hkey Hw) in Hc.
  injection Hc as <-.
  rewrite after_settled by reflexivity.
  apply getNonce_with_cached_address; [reflexivity|exact Hne].
Qed.

Lemma backend_getNonce_uses_derived_address_witness :
  exists i,
    construct sampleWallet echoRelayClient (backendConfig "0x01") = Returned i /\
    getNonce (object (after i [MethodRan MGetNonce])) None None [] =
      (Returned "addr:0x01", [Sent (GetNonce "addr:0x01" "EOA")]).
Proof.
  eexists. split; [reflexivity|].
  refine (backend_getNonce_uses_derived_address sampleWallet echoRelayClient
            (backendConfig "0x01") _ "0x01"
            {| wallet_privateKey := "0x01"; wallet_address := "addr:0x01" |}
            [MethodRan MGetNonce] None [] eq_refl eq_refl eq_refl _).
  discriminate.
Defined.

(** ** One error surface *)




(** ** Queries and the other submissions *)

(** What a forwarding method without post-processing does. *)
Lemma forward_shape {A : Type} (call : M A) (prefix : string) (w : World) :
  tryCatch call (fun error => throw (newError (prefix ++ exn_message error))) w =
  match call w with
  | (Returned r, w') => (Returned r, w')
  | (Threw e, w') => (Threw (newError (prefix ++ exn_message e)), w')
  end.
Proof.
  unfold tryCatch, throw. destruct (call w) as [[r|e] w']; reflexivity.
Qed.

(** [getRelayerAddress], [getTransaction] and [getTransactions] each put one
    request to the transport, and hand back what the relay answers as it is:
    the address, or the list of transactions unfiltered and in the relay's
    order; a refusal comes back as the method's wrapped error. *)
Theorem queries_forward (this : RelayerClient) (relay : Relay) (id : string)
    (w : World) :
  client this = scripted relay ->
  (snd (getRelayerAddress this w) = (w ++ [Sent GetRelayAddress])%list /\
   fst (getRelayerAddress this w) =
     match relayAddress relay w with
     | Returned r => Returned (ar_address r)
     | Threw e =>
         Threw (newError ("Failed to get relayer address: " ++ exn_message e))
     end)
  /\
  (snd (getTransaction this id w) = (w ++ [Sent (GetTransaction id)])%list /\
   fst (getTransaction this id w) =
     match historyOf relay id w with
     | Returned txs => Returned txs
     | Threw e => Threw (newError ("Failed to get transaction: " ++ exn_message e))
     end)
  /\
  (snd (getTransactions this w) = (w ++ [Sent GetTransactions])%list /\
   fst (getTransactions this w) =
     match allTransactions relay w with
     | Returned txs => Returned txs
     | Threw e => Threw (newError ("Failed to get transactions: " ++ exn_message e))
     end).
Proof.
  intros Hclient. split; [|split].
  - unfold getRelayerAddress, tryCatch, bind, ret, throw. rewrite Hclient.
    cbn [RelayClient.getRelayAddress scripted]. unfold request.
    destruct (relayAddress relay w); split; reflexivity.
  - unfold getTransaction. rewrite forward_shape, Hclient.
    cbn [RelayClient.getTransaction scripted]. unfold request.
    destruct (historyOf relay id w); split; reflexivity.
  - unfold getTransactions. rewrite forward_shape, Hclient.
    cbn [RelayClient.getTransactions scripted]. unfold request.
    destruct (allTransactions relay w); split; reflexivity.
Qed.

Lemma queries_forward_witness :
  getTransaction (clientOf stuckRelay None) "tx-9" [Slept 5] =
    (Returned [txRecord "tx-9" "STATE_NEW"], [Slept 5; Sent (GetTransaction "tx-9")]).
Proof.
  destruct (proj1 (proj2 (queries_forward (clientOf stuckRelay None) stuckRelay
                            "tx-9" [Slept 5] eq_refl))) as [Hw Hr].
  destruct (getTransaction (clientOf stuckRelay None) "tx-9" [Slept 5]) as [r w'].
  simpl in Hw, Hr. rewrite Hw, Hr. reflexivity.
Defined.

(** [executeSafeTransactions] and [deploySafe] validate nothing either: each
    puts exactly one request to the transport, the safe batch going out with
    its calls, their operation codes and the metadata untouched (an empty
    batch included), and returns the normalized response or the wrapped
    refusal. *)
Theorem safe_submissions_forward (this : RelayerClient) (relay : Relay)
    (transactions : list SafeTransaction) (metadata : option string) (w : World) :
  client this = scripted relay ->
  (snd (executeSafeTransactions this transactions metadata w) =
     (w ++ [Sent (ExecuteSafeTransactions transactions metadata)])%list /\
   fst (executeSafeTransactions this transactions metadata w) =
     match acceptSafe relay transactions metadata w with
     | Returned r => Returned (toResponse r)
     | Threw e =>
         Threw (newError ("Failed to execute safe transactions: " ++ exn_message e))
     end)
  /\
  (snd (deploySafe this w) = (w ++ [Sent DeploySafe])%list /\
   fst (deploySafe this w) =
     match acceptDeploy relay w with
     | Returned r => Returned (toResponse r)
     | Threw e => Threw (newError ("Failed to deploy safe: " ++ exn_message e))
     end).
Proof.
  intros Hclient. split.
  - unfold executeSafeTransactions. rewrite submit_shape, Hclient.
    cbn [RelayClient.executeSafeTransactions scripted]. unfold request.
    destruct (acceptSafe relay transactions metadata w); split; reflexivity.
  - unfold deploySafe. rewrite submit_shape, Hclient.
    cbn [RelayClient.deploySafe scripted]. unfold request.
    destruct (acceptDeploy relay w); split; reflexivity.
Qed.

Lemma safe_submissions_forward_witness :
  let call :=
    {| stx_to := "0xCAFE"; stx_operation := 1%Z; stx_data := "0xdead";
       stx_value := "0" |} in
  snd (executeSafeTransactions (clientOf rejectingRelay None) [call]
         (Some "note") []) =
    [Sent (ExecuteSafeTransactions [call] (Some "note"))] /\
  fst (executeSafeTransactions (clientOf rejectingRelay None) [call]
         (Some "note") []) =
    Threw (newError "Failed to execute safe transactions: rejected").
Proof.
  exact (proj1 (safe_submissions_forward (clientOf rejectingRelay None)
                  rejectingRelay
                  [{| stx_to := "0xCAFE"; stx_operation := 1%Z;
                      stx_data := "0xdead"; stx_value := "0" |}]
                  (Some "note") [] eq_refl)).
Defined.

(** ** Normalization *)


